(* ===================================================================== *)
(* MCP Server Explorer notebook: a shallow embedding of its helper code  *)
(* (tool_to_dict, NotebookAgent.__init__), of the configuration          *)
(* dictionaries of its driver cells and of the tool-listing cells.       *)
(* ===================================================================== *)

From Stdlib Require Import Ascii.
From stdpp Require Import gmap strings list fin_maps.

Set Warnings "-register-all".

Open Scope string_scope.

(* --------------------------------------------------------------------- *)
(* 1. Python values, exceptions, results                                 *)
(* --------------------------------------------------------------------- *)

(** Heap addresses of mutable objects. *)
Abbreviation loc := positive.

(** The Python values the notebook handles.  A dict is kept as the list of
    its items in insertion order (Python dicts preserve insertion order and
    [keys()] iterates in it).  [VObj] is an instance seen by value: its
    class name and its data attributes; [VRef] is a reference to a mutable
    instance living in the heap of section 4. *)
Inductive value : Type :=
| VNone
| VBool (b : bool)
| VInt (z : Z)
| VStr (s : string)
| VList (l : list value)
| VDict (d : list (string * value))
| VObj (cls : string) (attrs : list (string * value))
| VRef (l : loc).

(** Exceptions: the two built-in ones the helper code can raise itself, and
    the ones raised by the libraries the notebook calls into. *)
Inductive exn : Type :=
| AttributeError (attr : string)
| TypeError (msg : string)
| LibraryError (cls msg : string).

Inductive result (A : Type) : Type :=
| Ok (a : A)
| Raise (e : exn).
Arguments Ok {A} a.
Arguments Raise {A} e.

#[global] Instance result_ret : MRet result := λ A a, Ok a.
#[global] Instance result_bind : MBind result := λ A B f m,
  match m with
  | Ok a => f a
  | Raise e => Raise e
  end.

(** [bool(v)]: None, False, 0 and empty containers are falsy; an instance
    of a class defining neither [__bool__] nor [__len__] is truthy. *)
Definition truthy (v : value) : bool :=
  match v with
  | VNone => false
  | VBool b => b
  | VInt z => negb (Z.eqb z 0)
  | VStr s => match s with EmptyString => false | _ => true end
  | VList l => match l with [] => false | _ => true end
  | VDict d => match d with [] => false | _ => true end
  | VObj _ _ => true
  | VRef _ => true
  end.

(** Lookup in an item list: the first item with the key. *)
Fixpoint assoc (k : string) (d : list (string * value)) : option value :=
  match d with
  | [] => None
  | (k', v) :: d' => if String.eqb k k' then Some v else assoc k d'
  end.

(** [d[k] = v] on a dict: an existing key keeps its position, a new key
    goes to the end. *)
Fixpoint dict_set (k : string) (v : value) (d : list (string * value))
  : list (string * value) :=
  match d with
  | [] => [(k, v)]
  | (k', v') :: d' =>
      if String.eqb k k' then (k, v) :: d' else (k', v') :: dict_set k v d'
  end.

(** A dict display [{k1: v1, ..., kn: vn}]: the items are stored from left
    to right. *)
Definition dict_display (items : list (string * value)) : list (string * value) :=
  foldl (λ d kv, dict_set kv.1 kv.2 d) [] items.

Definition dict_keys (d : list (string * value)) : list string := d.*1.

(** [o.a] for a data attribute [a]. *)
Definition getattr (o : value) (a : string) : result value :=
  match o with
  | VObj _ attrs =>
      match assoc a attrs with
      | Some v => Ok v
      | None => Raise (AttributeError a)
      end
  | _ => Raise (AttributeError a)
  end.

(** [o.get(k, default)]: only dicts have the method here. *)
Definition call_get (o : value) (k : string) (default : value) : result value :=
  match o with
  | VDict d => Ok (match assoc k d with Some v => v | None => default end)
  | _ => Raise (AttributeError "get")
  end.

(** [list(o.keys())]. *)
Definition list_keys (o : value) : result value :=
  match o with
  | VDict d => Ok (VList (VStr <$> dict_keys d))
  | _ => Raise (AttributeError "keys")
  end.

(* --------------------------------------------------------------------- *)
(* 2. The formatter tool_to_dict                                         *)
(* --------------------------------------------------------------------- *)

(** The conditional expression
    [tool.annotations.<hint> if tool.annotations else None]:
    the condition is evaluated first, then the chosen branch. *)
Definition annotation_or_none (tool : value) (hint : string) : result value :=
  c ← getattr tool "annotations";
  if truthy c then
    a ← getattr tool "annotations";
    getattr a hint
  else Ok VNone.

(** [tool_to_dict(tool)]: the dict display is evaluated item by item, in
    the order written. *)
Definition tool_to_dict (tool : value) : result value :=
  name ← getattr tool "name";
  title ← annotation_or_none tool "title";
  description ← getattr tool "description";
  readOnly ← annotation_or_none tool "readOnlyHint";
  destructive ← annotation_or_none tool "destructiveHint";
  schema ← getattr tool "inputSchema";
  properties ← call_get schema "properties" (VDict []);
  inputs ← list_keys properties;
  Ok (VDict (dict_display
        [("name", name);
         ("title", title);
         ("description", description);
         ("readOnly", readOnly);
         ("destructive", destructive);
         ("inputs", inputs)])).

(** Modelled from the spec: the tool type itself is declared by the MCP
    client library, not by the notebook.  A tool object carries [name],
    [description], optional [annotations] and [inputSchema]; an annotations
    object carries the optional [title], [readOnlyHint] and
    [destructiveHint].  An optional field that the server did not report is
    [None] on the object. *)
Module Mcp.

Record ToolAnnotations : Type := {
  title : option string;
  readOnlyHint : option bool;
  destructiveHint : option bool
}.

Record Tool : Type := {
  name : string;
  description : option string;
  annotations : option ToolAnnotations;
  inputSchema : list (string * value)
}.

Definition opt_str (o : option string) : value :=
  match o with Some s => VStr s | None => VNone end.

Definition opt_bool (o : option bool) : value :=
  match o with Some b => VBool b | None => VNone end.

Definition annotations_value (a : ToolAnnotations) : value :=
  VObj "ToolAnnotations"
    [("title", opt_str (title a));
     ("readOnlyHint", opt_bool (readOnlyHint a));
     ("destructiveHint", opt_bool (destructiveHint a))].

Definition tool_value (t : Tool) : value :=
  VObj "Tool"
    [("name", VStr (name t));
     ("description", opt_str (description t));
     ("annotations",
        match annotations t with
        | Some a => annotations_value a
        | None => VNone
        end);
     ("inputSchema", VDict (inputSchema t))].

End Mcp.

Definition has_attr (a : string) (attrs : list (string * value)) : bool :=
  match assoc a attrs with Some _ => true | None => false end.

(** A well-formed annotations field: [None], or an instance that has the
    three hint attributes (each of them possibly [None]). *)
Definition wf_annotations (v : value) : bool :=
  match v with
  | VNone => true
  | VObj _ attrs =>
      has_attr "title" attrs && has_attr "readOnlyHint" attrs
      && has_attr "destructiveHint" attrs
  | _ => false
  end.

(** A well-formed input schema: a mapping whose ["properties"] entry, when
    there is one, is a mapping again. *)
Definition wf_schema (v : value) : bool :=
  match v with
  | VDict d =>
      match assoc "properties" d with
      | None => true
      | Some (VDict _) => true
      | Some _ => false
      end
  | _ => false
  end.

(** A well-formed tool object. *)
Definition wf_tool (v : value) : bool :=
  match v with
  | VObj _ attrs =>
      has_attr "name" attrs && has_attr "description" attrs
      && match assoc "annotations" attrs with
         | Some a => wf_annotations a
         | None => false
         end
      && match assoc "inputSchema" attrs with
         | Some s => wf_schema s
         | None => false
         end
  | _ => false
  end.

(** The field [key] of a record returned by the formatter. *)
Definition field (key : string) (r : value) : option value :=
  match r with
  | VDict d => assoc key d
  | _ => None
  end.

(** The hint [a] of an annotations field: [None] when there is no
    annotations object. *)
Definition hint_of (ann : value) (a : string) : value :=
  match ann with
  | VObj _ attrs => default VNone (assoc a attrs)
  | _ => VNone
  end.

(** The ["properties"] mapping of a schema, empty when there is none. *)
Definition properties_of (schema : list (string * value)) : list (string * value) :=
  match assoc "properties" schema with
  | Some (VDict p) => p
  | _ => []
  end.

(* --------------------------------------------------------------------- *)
(* 3. The configuration dictionaries of the driver cells                 *)
(* --------------------------------------------------------------------- *)

(** [os.getenv(k)] on the process environment: the value, or [None]. *)
Definition os_getenv (environ : gmap string string) (k : string) : value :=
  match environ !! k with
  | Some s => VStr s
  | None => VNone
  end.

(** [config] of the cell that lists the Playwright tools. *)
Definition config_playwright : value :=
  VDict (dict_display
    [("mcpServers", VDict (dict_display
       [("playwright", VDict (dict_display
          [("command", VStr "npx");
           ("args", VList [VStr "-y"; VStr "@playwright/mcp@latest"])]))]))]).

(** [config] of the cell that navigates with Playwright. *)
Definition config_playwright_navigate : value :=
  VDict (dict_display
    [("mcpServers", VDict (dict_display
       [("playwright", VDict (dict_display
          [("command", VStr "npx");
           ("args", VList [VStr "-y"; VStr "@playwright/mcp@latest"])]))]))]).

(** [config] of the Brave Search cell; it reads the process environment. *)
Definition config_brave_websearch (environ : gmap string string) : value :=
  VDict (dict_display
    [("mcpServers", VDict (dict_display
       [("brave_websearch", VDict (dict_display
          [("command", VStr "npx");
           ("args", VList [VStr "-y";
                           VStr "@modelcontextprotocol/server-brave-search"]);
           ("env", VDict (dict_display
              [("BRAVE_API_KEY", os_getenv environ "BRAVE_API_KEY")]))]))]))]).

(** Every configuration a driver cell hands to [Client(...)]. *)
Definition driver_configs (environ : gmap string string) : list value :=
  [config_playwright; config_playwright_navigate; config_brave_websearch environ].

Definition is_str (v : value) : bool :=
  match v with VStr _ => true | _ => false end.

Definition is_str_or_none (v : value) : bool :=
  match v with VStr _ | VNone => true | _ => false end.

Definition is_str_list (v : value) : bool :=
  match v with VList l => forallb is_str l | _ => false end.

Definition is_dict_of (p : value → bool) (v : value) : bool :=
  match v with VDict d => forallb p d.*2 | _ => false end.

Definition string_list_eqb (l1 l2 : list string) : bool :=
  bool_decide (l1 = l2).

(** The server entry as the specification words it:
    [{ "command": string, "args": [string...], "env": { string: string } }]. *)
Definition spec_server_entry (v : value) : bool :=
  match v with
  | VDict d =>
      string_list_eqb (dict_keys d) ["command"; "args"; "env"]
      && from_option is_str false (assoc "command" d)
      && from_option is_str_list false (assoc "args" d)
      && from_option (is_dict_of is_str) false (assoc "env" d)
  | _ => false
  end.

(** The configuration as the specification words it: a mapping whose
    top-level keys are the server names, each bound to a server entry. *)
Definition spec_config_shape (v : value) : bool :=
  is_dict_of spec_server_entry v.

(** The server entry as the cells write it: [command] and [args], then an
    optional [env] whose values are what [os.getenv] returns. *)
Definition cell_server_entry (v : value) : bool :=
  match v with
  | VDict d =>
      (string_list_eqb (dict_keys d) ["command"; "args"]
       || string_list_eqb (dict_keys d) ["command"; "args"; "env"])
      && from_option is_str false (assoc "command" d)
      && from_option is_str_list false (assoc "args" d)
      && from_option (is_dict_of is_str_or_none) true (assoc "env" d)
  | _ => false
  end.

(** The configuration as the cells write it: one top-level key
    ["mcpServers"], bound to the mapping from server names to entries. *)
Definition cell_config_shape (v : value) : bool :=
  match v with
  | VDict d =>
      string_list_eqb (dict_keys d) ["mcpServers"]
      && from_option (is_dict_of cell_server_entry) false (assoc "mcpServers" d)
  | _ => false
  end.

(** The server names of a configuration the cells write. *)
Definition server_names (v : value) : list string :=
  match field "mcpServers" v with
  | Some (VDict servers) => dict_keys servers
  | _ => []
  end.

(* --------------------------------------------------------------------- *)
(* 4. Effects: a state threaded through calls that may raise             *)
(* --------------------------------------------------------------------- *)

(** A computation over a state [S]: it ends with a value or an exception,
    and the state it leaves behind is kept in both cases. *)
Definition eff (S A : Type) : Type := S → result A * S.

#[global] Instance eff_ret {S} : MRet (eff S) := λ A a st, (Ok a, st).
#[global] Instance eff_bind {S} : MBind (eff S) := λ A B f m st,
  match m st with
  | (Ok a, st') => f a st'
  | (Raise e, st') => (Raise e, st')
  end.

Definition raise {S A} (e : exn) : eff S A := λ st, (Raise e, st).

(** A list comprehension [[f(x) for x in l]]. *)
Fixpoint comprehension {S A B} (f : A → eff S B) (l : list A) : eff S (list B) :=
  match l with
  | [] => mret []
  | x :: l' =>
      y ← f x;
      ys ← comprehension f l';
      mret (y :: ys)
  end.

(* --------------------------------------------------------------------- *)
(* 5. The quiet agent wrapper NotebookAgent                              *)
(* --------------------------------------------------------------------- *)

(** A mutable instance: its class and its attribute dictionary. *)
Record object : Type := {
  obj_class : string;
  obj_attrs : gmap string value
}.

(** What happens during a construction, in the order it happens. *)
Inductive event : Type :=
| EvAlloc (l : loc) (cls : string)
| EvBaseInit (name : string) (self : loc)
| EvSetAttr (l : loc) (attr : string) (v : value).

Record agent_state : Type := {
  st_heap : gmap loc object;
  st_trace : list event
}.

(** The base class of the wrapper belongs to the agent library: its
    constructor is a parameter, any function of the agent's name, the
    instance and the heap that may raise. *)
Definition base_constructor : Type :=
  string → loc → gmap loc object → result () * gmap loc object.

(** A base constructor never removes an object from the heap: an instance
    that is referenced, as [self] is during its construction, stays. *)
Definition keeps_objects (base : base_constructor) : Prop :=
  ∀ name self h r h', base name self h = (r, h') → dom h ⊆ dom h'.

(** Creating an instance of class [cls] with no attribute yet. *)
Definition alloc (cls : string) : eff agent_state loc := λ st,
  let l := fresh (dom (st_heap st)) in
  (Ok l,
   {| st_heap := <[l := {| obj_class := cls; obj_attrs := ∅ |}]> (st_heap st);
      st_trace := st_trace st ++ [EvAlloc l cls] |}).

(** [o.a = v]. *)
Definition setattr (o : value) (a : string) (v : value) : eff agent_state () :=
  λ st,
  match o with
  | VRef l =>
      match st_heap st !! l with
      | Some ob =>
          (Ok (),
           {| st_heap :=
                <[l := {| obj_class := obj_class ob;
                          obj_attrs := <[a := v]> (obj_attrs ob) |}]> (st_heap st);
              st_trace := st_trace st ++ [EvSetAttr l a v] |})
      | None => (Raise (AttributeError a), st)
      end
  | _ => (Raise (AttributeError a), st)
  end.

(** [o.a] when [o] may be a reference into the heap. *)
Definition getattr_ref (o : value) (a : string) : eff agent_state value := λ st,
  match o with
  | VRef l =>
      match st_heap st !! l ≫= λ ob, obj_attrs ob !! a with
      | Some v => (Ok v, st)
      | None => (Raise (AttributeError a), st)
      end
  | _ => (getattr o a, st)
  end.

(** [super().__init__(name)]. *)
Definition super_init (base : base_constructor) (name : string) (self : loc)
  : eff agent_state () := λ st,
  let '(r, h) := base name self (st_heap st) in
  (r, {| st_heap := h; st_trace := st_trace st ++ [EvBaseInit name self] |}).

(** [argparse.Namespace()]. *)
Definition Namespace : eff agent_state value :=
  l ← alloc "Namespace"; mret (VRef l).

(** [NotebookAgent.__init__(self)]. *)
Definition NotebookAgent_init (base : base_constructor) (self : loc)
  : eff agent_state () :=
  super_init base "NotebookAgent" self;;
  ns ← Namespace;
  setattr (VRef self) "args" ns;;
  args ← getattr_ref (VRef self) "args";
  setattr args "quiet" (VBool true).

(** The call of the class [NotebookAgent] on a list of arguments: the
    instance is created, then initialised; [__init__] takes no argument
    besides [self]. *)
Definition NotebookAgent (base : base_constructor) (arguments : list value)
  : eff agent_state loc :=
  self ← alloc "NotebookAgent";
  match arguments with
  | [] => NotebookAgent_init base self
  | _ => raise (TypeError "__init__() takes 1 positional argument")
  end;;
  mret self.

(** Reading [self.args.quiet]. *)
Definition quiet_flag (self : loc) : eff agent_state value :=
  args ← getattr_ref (VRef self) "args";
  getattr_ref args "quiet".

(** A base constructor to run the model with: it stores the parsed command
    line (no [--quiet] given, a model name) in a namespace of its own under
    [self.args], and the agent's name under [self.name]. *)
Definition cli_base_constructor : base_constructor := λ name self h,
  let parsed := fresh (dom h) in
  match h !! self with
  | Some ob =>
      (Ok (),
       <[self := {| obj_class := obj_class ob;
                    obj_attrs := <["name" := VStr name]>
                                   (<["args" := VRef parsed]> (obj_attrs ob)) |}]>
         (<[parsed := {| obj_class := "Namespace";
                         obj_attrs := <["model" := VStr "gpt-4o"]>
                                        {["quiet" := VBool false]} |}]> h))
  | None => (Raise (AttributeError "args"), h)
  end.

Definition empty_state : agent_state := {| st_heap := ∅; st_trace := [] |}.

(** "The quiet flag is set before any base-constructor behaviour": in the
    trace, a write of [quiet = True] comes before the first base
    constructor event. *)
Fixpoint quiet_set_before_base (tr : list event) : bool :=
  match tr with
  | [] => true
  | EvBaseInit _ _ :: _ => false
  | EvSetAttr _ "quiet" (VBool true) :: _ => true
  | _ :: tr' => quiet_set_before_base tr'
  end.

(* --------------------------------------------------------------------- *)
(* 6. The credential loader load_dotenv                                  *)
(* --------------------------------------------------------------------- *)

Definition is_space (c : ascii) : bool :=
  bool_decide (c = " "%char) || bool_decide (c = "009"%char).

Fixpoint lstrip (s : string) : string :=
  match s with
  | String c s' => if is_space c then lstrip s' else s
  | EmptyString => EmptyString
  end.

(** Splitting [KEY=VALUE] at its first [=]. *)
Fixpoint split_assignment (s : string) : option (string * string) :=
  match s with
  | EmptyString => None
  | String c s' =>
      if bool_decide (c = "="%char) then Some (EmptyString, s')
      else '(k, v) ← split_assignment s'; Some (String c k, v)
  end.

(** One line of the environment file: a blank line or a comment gives
    nothing, a [KEY=VALUE] line with a key gives its pair. *)
Definition parse_line (line : string) : option (string * string) :=
  match lstrip line with
  | EmptyString => None
  | String "#" _ => None
  | s =>
      match split_assignment s with
      | Some (EmptyString, _) => None
      | kv => kv
      end
  end.

(** The pairs of a file, in the order of its lines. *)
Definition dotenv_pairs (lines : list string) : list (string * string) :=
  omap parse_line lines.

(** Injecting one pair into the environment only if the key is not there. *)
Definition inject (environ : gmap string string) (kv : string * string)
  : gmap string string :=
  match environ !! kv.1 with
  | Some _ => environ
  | None => <[kv.1 := kv.2]> environ
  end.

(** Modelled from the spec: [load_dotenv] is the function of the dotenv
    package that the notebook calls with no argument; its code is not part
    of the notebook.  It reads a local file of [KEY=VALUE] lines (comments
    and blank lines ignored) and injects each pair into the process
    environment only if not already present; an absent file is a no-op. *)
Definition load_dotenv (file : option (list string)) (environ : gmap string string)
  : gmap string string :=
  match file with
  | None => environ
  | Some lines => foldl inject environ (dotenv_pairs lines)
  end.

(* --------------------------------------------------------------------- *)
(* 7. The cells that list the tools of a server                          *)
(* --------------------------------------------------------------------- *)

(** The client object of the tool-connection library, as the cells use it:
    entering and leaving its [async with] block and listing the tools, each
    acting on the world [W] outside the notebook (processes, pipes).
    [client_aexit] receives the exception the block ended with, if any, and
    answers whether it swallows it. *)
Record client (W : Type) : Type := {
  client_aenter : W → result () * W;
  client_list_tools : W → result (list value) * W;
  client_aexit : option exn → W → result bool * W
}.
Arguments client_aenter {W} _ _.
Arguments client_list_tools {W} _ _.
Arguments client_aexit {W} _ _ _.

(** What a cell run leaves behind: the outside world, the tools the
    formatter was invoked on, and the tables displayed. *)
Record cell_state (W : Type) : Type := {
  world : W;
  formatted : list value;
  displayed : list value
}.
Arguments world {W} _.
Arguments formatted {W} _.
Arguments displayed {W} _.

(** A call into the library. *)
Definition library_call {W A} (f : W → result A * W) : eff (cell_state W) A :=
  λ st,
  let '(r, w) := f (world st) in
  (r, {| world := w; formatted := formatted st; displayed := displayed st |}).

(** A call of [tool_to_dict(t)] from a cell. *)
Definition call_tool_to_dict {W} (t : value) : eff (cell_state W) value := λ st,
  (tool_to_dict t,
   {| world := world st; formatted := formatted st ++ [t];
      displayed := displayed st |}).

(** [pd.DataFrame(rows)]: the table of the rows. *)
Definition DataFrame (rows : list value) : value := VList rows.

(** [display(df)]. *)
Definition display {W} (df : value) : eff (cell_state W) () := λ st,
  (Ok (),
   {| world := world st; formatted := formatted st;
      displayed := displayed st ++ [df] |}).

(** [async with c: body].  Entering may raise, and then neither the body
    nor the exit runs.  Otherwise the exit runs after the body, with the
    body's exception if there is one, which goes on unless the exit
    swallows it or raises itself. *)
Definition async_with {W} (c : client W) (body : eff (cell_state W) ())
  : eff (cell_state W) () := λ st,
  match library_call (client_aenter c) st with
  | (Raise e, st1) => (Raise e, st1)
  | (Ok _, st1) =>
      match body st1 with
      | (Ok _, st2) =>
          match library_call (client_aexit c None) st2 with
          | (Ok _, st3) => (Ok (), st3)
          | (Raise e', st3) => (Raise e', st3)
          end
      | (Raise e, st2) =>
          match library_call (client_aexit c (Some e)) st2 with
          | (Ok true, st3) => (Ok (), st3)
          | (Ok false, st3) => (Raise e, st3)
          | (Raise e', st3) => (Raise e', st3)
          end
      end
  end.

(** The coroutine [run] of the Playwright cell and [run_list] of the Brave
    Search cell have the same body; [asyncio.run] runs it to its end and
    lets its exception through. *)
Definition list_tools_body {W} (c : client W) : eff (cell_state W) () :=
  async_with c (
    mcp_tools ← library_call (client_list_tools c);
    rows ← comprehension call_tool_to_dict mcp_tools;
    display (DataFrame rows)).

(** The library's [Client(config)] is a parameter of both cells. *)
Definition run {W} (Client : value → client W) : eff (cell_state W) () :=
  list_tools_body (Client config_playwright).

Definition run_list {W} (Client : value → client W) (environ : gmap string string)
  : eff (cell_state W) () :=
  list_tools_body (Client (config_brave_websearch environ)).

(** The two cells that list tools, the configuration each of them connects
    with, and what each of them runs. *)
Inductive listing_cell : Type :=
| PlaywrightCell
| BraveSearchCell (environ : gmap string string).

Definition cell_config (cell : listing_cell) : value :=
  match cell with
  | PlaywrightCell => config_playwright
  | BraveSearchCell environ => config_brave_websearch environ
  end.

Definition run_cell {W} (Client : value → client W) (cell : listing_cell)
  : eff (cell_state W) () :=
  match cell with
  | PlaywrightCell => run Client
  | BraveSearchCell environ => run_list Client environ
  end.

(** Listing the tools fails with [e]: either the connection cannot be
    opened (the server process cannot be launched), or the request for the
    catalog fails on an open connection that is then closed without the
    exit swallowing or replacing the error. *)
Inductive listing_fails {W} (c : client W) (w : W) (e : exn) : Prop :=
| fails_on_connect w1 :
    client_aenter c w = (Raise e, w1) →
    listing_fails c w e
| fails_on_request w1 w2 w3 :
    client_aenter c w = (Ok (), w1) →
    client_list_tools c w1 = (Raise e, w2) →
    client_aexit c (Some e) w2 = (Ok false, w3) →
    listing_fails c w e.

(** The error of a launch command that cannot be found. *)
Definition spawn_error : exn := LibraryError "FileNotFoundError" "npx".

(** A client whose launch command cannot be run: entering raises. *)
Definition unreachable_client : client () := {|
  client_aenter := λ w, (Raise spawn_error, w);
  client_list_tools := λ w, (Ok [], w);
  client_aexit := λ _ w, (Ok false, w)
|}.

(* --------------------------------------------------------------------- *)
(* 8. Sample inputs                                                      *)
(* --------------------------------------------------------------------- *)

Definition sample_properties : list (string * value) :=
  dict_display [("url", VDict (dict_display [("type", VStr "string")]));
                ("count", VDict (dict_display [("type", VStr "number")]))].

Definition sample_schema : list (string * value) :=
  dict_display [("type", VStr "object"); ("properties", VDict sample_properties)].

(** A tool with an annotations object that reports only [readOnlyHint], and
    a schema with the properties [url] and [count], in this order. *)
Definition sample_tool : value :=
  Mcp.tool_value
    {| Mcp.name := "browser_navigate";
       Mcp.description := Some "Navigate to a URL";
       Mcp.annotations :=
         Some {| Mcp.title := None;
                 Mcp.readOnlyHint := Some false;
                 Mcp.destructiveHint := None |};
       Mcp.inputSchema := sample_schema |}.

Definition sample_bare_schema : list (string * value) :=
  dict_display [("type", VStr "object")].

(** A tool without annotations and without schema properties. *)
Definition sample_tool_bare : value :=
  Mcp.tool_value
    {| Mcp.name := "browser_close";
       Mcp.description := None;
       Mcp.annotations := None;
       Mcp.inputSchema := sample_bare_schema |}.

(** An annotations object without the [title] attribute, and a schema whose
    ["properties"] is [None]: neither is a well-formed tool object. *)
Definition malformed_tool_no_title : value :=
  VObj "Tool"
    [("name", VStr "t"); ("description", VNone);
     ("annotations", VObj "ToolAnnotations" [("readOnlyHint", VNone)]);
     ("inputSchema", VDict sample_bare_schema)].

Definition malformed_tool_properties_none : value :=
  VObj "Tool"
    [("name", VStr "t"); ("description", VNone); ("annotations", VNone);
     ("inputSchema", VDict (dict_display [("properties", VNone)]))].

(** An environment with a key set in the shell, and a file redefining it. *)
Definition sample_environ : gmap string string :=
  {["BRAVE_API_KEY" := "from-shell"]}.

Definition sample_env_file : option (list string) :=
  Some ["# .env"; "OPENAI_API_KEY=your_openai_key"; "";
        "BRAVE_API_KEY=your_brave_key"].

(** A cell state before anything ran. *)
Definition sample_cell_state : cell_state () :=
  {| world := (); formatted := []; displayed := [] |}.

(** The construction on the sample base constructor, from the empty heap. *)
Definition sample_construction : result loc * agent_state :=
  NotebookAgent cli_base_constructor [] empty_state.

(* --------------------------------------------------------------------- *)
(* 9. The exact domain of the formatter                                  *)
(* --------------------------------------------------------------------- *)

(** The tool objects on which every attribute access and method call of
    [tool_to_dict] goes through: the four attributes are there,
    [annotations] is falsy or an instance with the three hints, and
    [inputSchema] is a mapping whose ["properties"], if any, is a mapping. *)
Definition formattable (v : value) : bool :=
  match v with
  | VObj _ attrs =>
      has_attr "name" attrs && has_attr "description" attrs
      && match assoc "annotations" attrs with
         | Some a => negb (truthy a) || wf_annotations a
         | None => false
         end
      && match assoc "inputSchema" attrs with
         | Some s => wf_schema s
         | None => false
         end
  | _ => false
  end.

(** The names an [AttributeError] of the formatter can carry: the
    attributes it reads and the two dict methods it calls. *)
Definition formatter_accesses : list string :=
  ["name"; "annotations"; "title"; "description"; "readOnlyHint";
   "destructiveHint"; "inputSchema"; "get"; "keys"].

(** JSON data: [None], booleans, numbers, strings, lists and mappings of
    JSON data; no instance and no reference.  None of these values has an
    attribute or a method the formatter asks for, except the methods [get]
    and [keys] of a mapping. *)
Fixpoint json_data (v : value) : bool :=
  match v with
  | VNone | VBool _ | VInt _ | VStr _ => true
  | VList l => forallb json_data l
  | VDict d => forallb (λ kv, json_data kv.2) d
  | VObj _ _ | VRef _ => false
  end.

(** A reference into the heap, whose attributes are not in the value. *)
Definition is_reference (v : value) : bool :=
  match v with VRef _ => true | _ => false end.

(** The keys of the record, in the order of the dict display. *)
Definition record_keys : list string :=
  ["name"; "title"; "description"; "readOnly"; "destructive"; "inputs"].

(* --------------------------------------------------------------------- *)
(* 10. The cells that call a tool                                        *)
(* --------------------------------------------------------------------- *)

(** Built-in exceptions other than the two of section 1 are written with
    their class name. *)
Definition IndexError : exn := LibraryError "IndexError" "index out of range".
Definition KeyError : exn := LibraryError "KeyError" "0".

(** [o[0]]: the first item of a list, the first character of a string;
    a mapping with string keys has no key [0]; the other values are not
    subscriptable. *)
Definition first_item (o : value) : result value :=
  match o with
  | VList l =>
      match l with
      | v :: _ => Ok v
      | [] => Raise IndexError
      end
  | VStr s =>
      match s with
      | String c _ => Ok (VStr (String c EmptyString))
      | EmptyString => Raise IndexError
      end
  | VDict _ => Raise KeyError
  | _ => Raise (TypeError "object is not subscriptable")
  end.

(** A computation that only evaluates an expression. *)
Definition evaluate {S A} (r : result A) : eff S A := λ st, (r, st).

(** The client object with its [call_tool] method, which takes the name of
    the tool and the mapping of its arguments. *)
Record tool_client (W : Type) : Type := {
  tc_client : client W;
  client_call_tool : string → value → W → result value * W
}.
Arguments tc_client {W} _.
Arguments client_call_tool {W} _ _ _ _.

(** The argument mappings of the two tool calls. *)
Definition navigate_arguments : value :=
  VDict (dict_display [("url", VStr "https://github.com/messeb")]).

Definition search_arguments : value :=
  VDict (dict_display [("query", VStr "Mallorca");
                       ("count", VInt 5);
                       ("offset", VInt 0)]).

(** The coroutine [run] of the cell that navigates with Playwright: the
    response is bound and dropped (the line printing it is commented
    out). *)
Definition run_navigate {W} (c : tool_client W) : eff (cell_state W) () :=
  async_with (tc_client c) (
    response ← library_call
      (client_call_tool c "browser_navigate" navigate_arguments);
    mret ()).

(** The coroutine [run_tool] of the Brave Search cell.  [Markdown] is the
    notebook library's constructor and a parameter. *)
Definition run_tool {W} (c : tool_client W) (Markdown : value → result value)
  : eff (cell_state W) () :=
  async_with (tc_client c) (
    response ← library_call
      (client_call_tool c "brave_web_search" search_arguments);
    first ← evaluate (first_item response);
    text ← evaluate (getattr first "text");
    md ← evaluate (Markdown text);
    display md).

(** The last two lines of the Brave Search cell: [asyncio.run(run_list())],
    then [asyncio.run(run_tool())], both on the one [client] of the cell. *)
Definition brave_search_cell {W} (Client : value → tool_client W)
    (Markdown : value → result value) (environ : gmap string string)
  : eff (cell_state W) () :=
  run_list (λ cfg, tc_client (Client cfg)) environ;;
  run_tool (Client (config_brave_websearch environ)) Markdown.

(** The server entry of the Brave Search configuration. *)
Definition brave_server_entry (environ : gmap string string) : option value :=
  field "mcpServers" (config_brave_websearch environ) ≫= field "brave_websearch".

(* --------------------------------------------------------------------- *)
(* 11. The steps of a construction                                       *)
(* --------------------------------------------------------------------- *)

(** The instance a call creates, and the heap the base constructor is
    given. *)
Definition new_self (st : agent_state) : loc := fresh (dom (st_heap st)).

Definition heap_at_base (st : agent_state) : gmap loc object :=
  <[new_self st := {| obj_class := "NotebookAgent"; obj_attrs := ∅ |}]> (st_heap st).

(** The events a run added to the trace. *)
Definition new_events (st st' : agent_state) : list event :=
  drop (length (st_trace st)) (st_trace st').

Definition is_base_init (ev : event) : bool :=
  match ev with EvBaseInit _ _ => true | _ => false end.

Definition is_write (ev : event) : bool :=
  match ev with EvSetAttr _ _ _ => true | _ => false end.

(* --------------------------------------------------------------------- *)
(* 12. More sample inputs                                                *)
(* --------------------------------------------------------------------- *)

(** A tool whose annotations object reports [readOnlyHint = False] and a
    title. *)
Definition sample_tool_titled : value :=
  Mcp.tool_value
    {| Mcp.name := "browser_click";
       Mcp.description := Some "Click an element";
       Mcp.annotations :=
         Some {| Mcp.title := Some "Click";
                 Mcp.readOnlyHint := Some false;
                 Mcp.destructiveHint := Some true |};
       Mcp.inputSchema := sample_schema |}.

(** A tool object that has no [annotations] attribute at all. *)
Definition malformed_tool_no_annotations : value :=
  VObj "Tool"
    [("name", VStr "t"); ("description", VStr "d");
     ("inputSchema", VDict sample_bare_schema)].

(** A tool object whose [annotations] is an empty mapping: falsy, though
    not [None]. *)
Definition sample_tool_empty_annotations : value :=
  VObj "Tool"
    [("name", VStr "t"); ("description", VStr "d");
     ("annotations", VDict []);
     ("inputSchema", VDict sample_bare_schema)].

(** A client that connects and lists the three sample tools, the second
    of which may be replaced by a malformed one. *)
Definition listing_client (tools : list value) : client () := {|
  client_aenter := λ w, (Ok (), w);
  client_list_tools := λ w, (Ok tools, w);
  client_aexit := λ _ w, (Ok false, w)
|}.

(** A client whose exit replaces the error of the block by its own, and one
    whose exit swallows it. *)
Definition close_error : exn := LibraryError "RuntimeError" "close failed".

Definition replacing_client : client () := {|
  client_aenter := λ w, (Ok (), w);
  client_list_tools := λ w, (Raise spawn_error, w);
  client_aexit := λ _ w, (Raise close_error, w)
|}.

Definition swallowing_client : client () := {|
  client_aenter := λ w, (Ok (), w);
  client_list_tools := λ w, (Raise spawn_error, w);
  client_aexit := λ _ w, (Ok true, w)
|}.

(** A tool client that answers every call with the given response. *)
Definition answering_client (response : value) : tool_client () := {|
  tc_client := listing_client [];
  client_call_tool := λ _ _ w, (Ok response, w)
|}.

(** A tool client over a world that logs the calls made to it. *)
Definition logging_client (fail : bool) : tool_client (list string) := {|
  tc_client := {|
    client_aenter := λ w,
      (if fail then Raise spawn_error else Ok (), w ++ ["aenter"])%list;
    client_list_tools := λ w, (Ok [], w ++ ["list_tools"])%list;
    client_aexit := λ _ w, (Ok false, w ++ ["aexit"])%list
  |};
  client_call_tool := λ name _ w, (Ok (VList []), w ++ [name])%list
|}.

(** The state of a cell run over the logging world, before anything ran. *)
Definition sample_log_state : cell_state (list string) :=
  {| world := []; formatted := []; displayed := [] |}.

(** A text block and an image block of a tool response. *)
Definition sample_text_block : value :=
  VObj "TextContent" [("type", VStr "text"); ("text", VStr "# Mallorca")].

Definition sample_image_block : value :=
  VObj "ImageContent" [("type", VStr "image"); ("data", VStr "iVBORw0KGgo=")].

(** The record of [sample_tool]. *)
Definition sample_record : value :=
  VDict [("name", VStr "browser_navigate"); ("title", VNone);
         ("description", VStr "Navigate to a URL");
         ("readOnly", VBool false); ("destructive", VNone);
         ("inputs", VList [VStr "url"; VStr "count"])].

(** The state a listing cell leaves after displaying the table of
    [sample_tool]. *)
Definition sample_listed_state : cell_state () :=
  {| world := (); formatted := [sample_tool];
     displayed := [DataFrame [sample_record]] |}.

(** [Markdown(text)] as an object holding its text. *)
Definition sample_Markdown (text : value) : result value :=
  Ok (VObj "Markdown" [("data", text)]).

(** A second construction, in the state the sample one left. *)
Definition sample_second_construction : result loc * agent_state :=
  NotebookAgent cli_base_constructor [] sample_construction.2.

(** The heap the sample base constructor leaves on the first call. *)
Definition sample_base_heap : gmap loc object :=
  (cli_base_constructor "NotebookAgent" (new_self empty_state)
     (heap_at_base empty_state)).2.

(** The error of the failing base constructor. *)
Definition config_error : exn := LibraryError "ConfigError" "no configuration".

(** A base constructor that raises. *)
Definition failing_base_constructor : base_constructor := λ name self h,
  (Raise config_error, h).

(* ===================================================================== *)
(* Theorems                                                              *)
(* ===================================================================== *)

(* --------------------------------------------------------------------- *)
(* The formatter                                                         *)
(* --------------------------------------------------------------------- *)

Lemma has_attr_true a attrs :
  has_attr a attrs = true → ∃ v, assoc a attrs = Some v.
Proof. unfold has_attr. destruct (assoc a attrs); [eauto | done]. Qed.

(** What a well-formed tool object is made of. *)
Lemma wf_tool_inv tool :
  wf_tool tool = true →
  ∃ cls attrs n d a s,
    tool = VObj cls attrs ∧
    assoc "name" attrs = Some n ∧
    assoc "description" attrs = Some d ∧
    assoc "annotations" attrs = Some a ∧
    wf_annotations a = true ∧
    assoc "inputSchema" attrs = Some (VDict s) ∧
    wf_schema (VDict s) = true.
Proof.
  destruct tool as [| | | | | |cls attrs|]; try done.
  cbn [wf_tool]. intros H.
  apply andb_prop in H as [H Hs]. apply andb_prop in H as [H Ha].
  apply andb_prop in H as [Hn Hd].
  apply has_attr_true in Hn as [n Hn]. apply has_attr_true in Hd as [d Hd].
  destruct (assoc "annotations" attrs) as [a|] eqn:Ea; [|done].
  destruct (assoc "inputSchema" attrs) as [sv|] eqn:Es; [|done].
  destruct sv as [| | | | |s| |]; try done.
  exists cls, attrs, n, d, a, s. done.
Qed.

(** On a well-formed annotations field the conditional expression of the
    formatter returns the hint, or [None] without an annotations object. *)
Lemma annotation_or_none_wf cls attrs a hint :
  assoc "annotations" attrs = Some a →
  wf_annotations a = true →
  hint ∈ ["title"; "readOnlyHint"; "destructiveHint"] →
  annotation_or_none (VObj cls attrs) hint = Ok (hint_of a hint).
Proof.
  intros Ea Hwf Hin. unfold annotation_or_none. cbn [getattr]. rewrite Ea.
  destruct a as [| | | | | |acls aattrs|]; try done.
  cbn [wf_annotations] in Hwf.
  apply andb_prop in Hwf as [Hwf H3]. apply andb_prop in Hwf as [H1 H2].
  apply has_attr_true in H1 as [v1 H1]. apply has_attr_true in H2 as [v2 H2].
  apply has_attr_true in H3 as [v3 H3].
  cbn.
  set_unfold in Hin. destruct Hin as [->|[->|[->|[]]]].
  - by rewrite H1.
  - by rewrite H2.
  - by rewrite H3.
Qed.

(** The record the formatter returns on a well-formed tool object. *)
Lemma tool_to_dict_spec tool :
  wf_tool tool = true →
  ∃ cls attrs n d a s,
    tool = VObj cls attrs ∧
    assoc "name" attrs = Some n ∧
    assoc "description" attrs = Some d ∧
    assoc "annotations" attrs = Some a ∧
    assoc "inputSchema" attrs = Some (VDict s) ∧
    tool_to_dict tool =
      Ok (VDict [("name", n);
                 ("title", hint_of a "title");
                 ("description", d);
                 ("readOnly", hint_of a "readOnlyHint");
                 ("destructive", hint_of a "destructiveHint");
                 ("inputs", VList (VStr <$> dict_keys (properties_of s)))]).
Proof.
  intros Hwf.
  destruct (wf_tool_inv _ Hwf) as (cls & attrs & n & d & a & s & -> & Hn & Hd & Ha & Hwa & Hs & Hws).
  exists cls, attrs, n, d, a, s. repeat split; try done.
  unfold tool_to_dict.
  rewrite !(annotation_or_none_wf cls attrs a) by (done || set_solver).
  cbn [getattr]. rewrite Hn, Hd, Hs. cbn [mbind result_bind call_get].
  unfold properties_of. cbn [wf_schema] in Hws.
  destruct (assoc "properties" s) as [[| | | | |p| |]|]; try done.
Qed.

(** Typed tool objects are well formed as soon as their schema is. *)
Lemma tool_value_wf (t : Mcp.Tool) :
  wf_schema (VDict (Mcp.inputSchema t)) = true →
  wf_tool (Mcp.tool_value t) = true.
Proof.
  intros Hs. unfold Mcp.tool_value. cbn [wf_tool].
  change (assoc "inputSchema" _) with (Some (VDict (Mcp.inputSchema t))).
  cbn -[wf_schema]. rewrite Hs. by destruct (Mcp.annotations t).
Qed.

(** C1, as stated, fails: on a tool object whose annotations object is
    there but has no [title] attribute at all, the formatter does not
    return a record with [None] for the title; reading the attribute
    raises [AttributeError]. *)
Lemma tool_to_dict_lacking_hint_counterexample :
  (∃ cls attrs,
     getattr malformed_tool_no_title "annotations" = Ok (VObj cls attrs) ∧
     has_attr "title" attrs = false) ∧
  tool_to_dict malformed_tool_no_title = Raise (AttributeError "title") ∧
  ¬ ∃ r, tool_to_dict malformed_tool_no_title = Ok r ∧
         field "title" r = Some VNone.
Proof.
  split; [by eexists _, _|]. split; [reflexivity|].
  by intros (r & Hr & _).
Qed.

(** C1, amended.  [tool_to_dict] returns a record on every well-formed
    tool object: one whose annotations, when there is an annotations
    object, carries the three hint attributes, each possibly [None].  In
    that record an optional field is [None] whenever its source is [None]:
    all three of [title], [readOnly], [destructive] when [annotations] is
    [None], and each one separately when the corresponding hint of the
    annotations object is [None]. *)
Theorem tool_to_dict_total (tool : value) :
  wf_tool tool = true →
  ∃ r, tool_to_dict tool = Ok r ∧
    ∀ ann, getattr tool "annotations" = Ok ann →
      (ann = VNone →
         field "title" r = Some VNone ∧ field "readOnly" r = Some VNone ∧
         field "destructive" r = Some VNone) ∧
      (getattr ann "title" = Ok VNone → field "title" r = Some VNone) ∧
      (getattr ann "readOnlyHint" = Ok VNone → field "readOnly" r = Some VNone) ∧
      (getattr ann "destructiveHint" = Ok VNone →
         field "destructive" r = Some VNone).
Proof.
  intros Hwf.
  destruct (tool_to_dict_spec _ Hwf)
    as (cls & attrs & n & d & a & s & -> & Hn & Hd & Ha & Hs & ->).
  eexists. split; [reflexivity|].
  intros ann. cbn [getattr]. rewrite Ha. intros [= <-].
  cbn [field assoc String.eqb Ascii.eqb Bool.eqb].
  split; [by intros ->|].
  assert (Hhint : ∀ h, getattr a h = Ok VNone → hint_of a h = VNone).
  { intros h. destruct a as [| | | | | |acls aattrs|]; try done.
    cbn [getattr hint_of]. destruct (assoc h aattrs) as [v|]; [|done].
    by intros [= ->]. }
  repeat split; intros Hlack; by rewrite Hhint.
Qed.

Lemma tool_to_dict_total_witness :
  wf_tool sample_tool = true ∧
  ∃ r, tool_to_dict sample_tool = Ok r ∧
    ∀ ann, getattr sample_tool "annotations" = Ok ann →
      (ann = VNone →
         field "title" r = Some VNone ∧ field "readOnly" r = Some VNone ∧
         field "destructive" r = Some VNone) ∧
      (getattr ann "title" = Ok VNone → field "title" r = Some VNone) ∧
      (getattr ann "readOnlyHint" = Ok VNone → field "readOnly" r = Some VNone) ∧
      (getattr ann "destructiveHint" = Ok VNone →
         field "destructive" r = Some VNone).
Proof.
  split; [reflexivity | apply (tool_to_dict_total sample_tool); reflexivity].
Defined.

(** C5, as stated, fails for an absent field: on a tool object that has
    no [annotations] attribute at all, the formatter returns no record;
    reading the attribute raises [AttributeError]. *)
Lemma tool_to_dict_absent_annotations_counterexample :
  getattr malformed_tool_no_annotations "annotations"
    = Raise (AttributeError "annotations") ∧
  tool_to_dict malformed_tool_no_annotations
    = Raise (AttributeError "annotations") ∧
  ¬ ∃ r, tool_to_dict malformed_tool_no_annotations = Ok r ∧
         field "title" r = Some VNone ∧
         field "readOnly" r = Some VNone ∧
         field "destructive" r = Some VNone.
Proof.
  split; [reflexivity|]. split; [reflexivity|].
  by intros (r & Hr & _).
Qed.

(** C5, amended.  On a well-formed tool object whose [annotations] is
    [None] (the value the field has when the descriptor carries no
    annotations), the record has [title], [readOnly] and [destructive] all
    [None]. *)
Theorem tool_to_dict_no_annotations (tool : value) :
  wf_tool tool = true →
  getattr tool "annotations" = Ok VNone →
  ∃ r, tool_to_dict tool = Ok r ∧
       field "title" r = Some VNone ∧
       field "readOnly" r = Some VNone ∧
       field "destructive" r = Some VNone.
Proof.
  intros Hwf Hann.
  destruct (tool_to_dict_spec _ Hwf)
    as (cls & attrs & n & d & a & s & -> & Hn & Hd & Ha & Hs & ->).
  cbn [getattr] in Hann. rewrite Ha in Hann. injection Hann as ->.
  eexists. split; [reflexivity|]. done.
Qed.

Lemma tool_to_dict_no_annotations_witness :
  wf_tool sample_tool_bare = true ∧
  getattr sample_tool_bare "annotations" = Ok VNone ∧
  ∃ r, tool_to_dict sample_tool_bare = Ok r ∧
       field "title" r = Some VNone ∧
       field "readOnly" r = Some VNone ∧
       field "destructive" r = Some VNone.
Proof.
  split; [reflexivity|]. split; [reflexivity|].
  apply (tool_to_dict_no_annotations sample_tool_bare); reflexivity.
Defined.

(** C6. On a tool object whose [inputSchema] has no ["properties"] key, the
    [inputs] field of the record is the empty list. *)
Theorem tool_to_dict_no_properties (tool : value) (schema : list (string * value)) :
  wf_tool tool = true →
  getattr tool "inputSchema" = Ok (VDict schema) →
  "properties" ∉ dict_keys schema →
  ∃ r, tool_to_dict tool = Ok r ∧ field "inputs" r = Some (VList []).
Proof.
  intros Hwf Hschema Hkey.
  destruct (tool_to_dict_spec _ Hwf)
    as (cls & attrs & n & d & a & s & -> & Hn & Hd & Ha & Hs & ->).
  cbn [getattr] in Hschema. rewrite Hs in Hschema. injection Hschema as ->.
  eexists. split; [reflexivity|].
  cbn [field assoc String.eqb Ascii.eqb Bool.eqb].
  unfold properties_of. replace (assoc "properties" schema) with (@None value); [done|].
  symmetry. clear -Hkey. induction schema as [|[k v] schema IH]; [done|].
  cbn [assoc]. unfold dict_keys in *. rewrite fmap_cons, not_elem_of_cons in Hkey.
  destruct Hkey as [Hne Hkey]. cbn in Hne.
  destruct (String.eqb_spec "properties" k); [done | auto].
Qed.

Lemma tool_to_dict_no_properties_witness :
  wf_tool sample_tool_bare = true ∧
  getattr sample_tool_bare "inputSchema" = Ok (VDict sample_bare_schema) ∧
  ("properties" ∉ dict_keys sample_bare_schema) ∧
  ∃ r, tool_to_dict sample_tool_bare = Ok r ∧ field "inputs" r = Some (VList []).
Proof.
  assert (Hkey : "properties" ∉ dict_keys sample_bare_schema).
  { apply (bool_decide_unpack _). vm_compute. exact I. }
  split; [reflexivity|]. split; [reflexivity|]. split; [exact Hkey|].
  apply (tool_to_dict_no_properties sample_tool_bare sample_bare_schema);
    [reflexivity | reflexivity | exact Hkey].
Defined.

(** C7. On a tool object whose [inputSchema] has a ["properties"] mapping,
    the [inputs] field of the record is the list of the keys of that
    mapping, in the order the mapping holds them. *)
Theorem tool_to_dict_inputs (tool : value) (schema properties : list (string * value)) :
  wf_tool tool = true →
  getattr tool "inputSchema" = Ok (VDict schema) →
  field "properties" (VDict schema) = Some (VDict properties) →
  ∃ r, tool_to_dict tool = Ok r ∧
       field "inputs" r = Some (VList (VStr <$> dict_keys properties)).
Proof.
  intros Hwf Hschema Hprops.
  destruct (tool_to_dict_spec _ Hwf)
    as (cls & attrs & n & d & a & s & -> & Hn & Hd & Ha & Hs & ->).
  cbn [getattr] in Hschema. rewrite Hs in Hschema. injection Hschema as ->.
  eexists. split; [reflexivity|].
  cbn [field] in Hprops.
  cbn [field assoc String.eqb Ascii.eqb Bool.eqb].
  unfold properties_of. by rewrite Hprops.
Qed.

(** The example of C7: for properties [{"url": ..., "count": ...}] the
    inputs are [["url", "count"]]. *)
Lemma tool_to_dict_inputs_witness :
  wf_tool sample_tool = true ∧
  getattr sample_tool "inputSchema" = Ok (VDict sample_schema) ∧
  field "properties" (VDict sample_schema) = Some (VDict sample_properties) ∧
  dict_keys sample_properties = ["url"; "count"] ∧
  ∃ r, tool_to_dict sample_tool = Ok r ∧
       field "inputs" r = Some (VList [VStr "url"; VStr "count"]).
Proof.
  split; [reflexivity|]. split; [reflexivity|]. split; [reflexivity|].
  split; [reflexivity|].
  apply (tool_to_dict_inputs sample_tool sample_schema sample_properties);
    reflexivity.
Defined.

(** Outside the well-formed tool objects the formatter raises: on an
    annotations object without the attribute it reads, and on a schema
    whose ["properties"] entry is not a mapping. *)
Lemma tool_to_dict_malformed :
  tool_to_dict malformed_tool_no_title = Raise (AttributeError "title") ∧
  tool_to_dict malformed_tool_properties_none = Raise (AttributeError "keys").
Proof. split; reflexivity. Qed.

(* --------------------------------------------------------------------- *)
(* The configuration dictionaries                                        *)
(* --------------------------------------------------------------------- *)

(** C3, as stated, fails: the Playwright configuration does not have the
    shape whose top-level keys are the server names.  Its only top-level
    key is ["mcpServers"], and its server entry has no ["env"]; with
    [BRAVE_API_KEY] unset the Brave Search entry binds it to [None]. *)
Lemma driver_configs_spec_shape_counterexample :
  config_playwright ∈ driver_configs ∅ ∧
  spec_config_shape config_playwright = false ∧
  match config_playwright with
  | VDict d => dict_keys d
  | _ => []
  end = ["mcpServers"] ∧
  (field "mcpServers" config_playwright ≫= field "playwright")
    ≫= (λ entry, Some (spec_server_entry entry)) = Some false ∧
  (field "mcpServers" (config_brave_websearch ∅) ≫= field "brave_websearch")
    ≫= (λ entry, Some (spec_server_entry entry)) = Some false.
Proof.
  split; [apply list_elem_of_here|]. by vm_compute.
Qed.

(** C3, amended.  Every configuration of the driver cells is a mapping
    with the single top-level key ["mcpServers"], bound to the mapping
    from server names to entries [{"command": string, "args": [string...]}]
    with an optional ["env"] whose values are strings or [None]; the
    server names are the keys of that inner mapping. *)
Theorem driver_configs_shape (environ : gmap string string) (cfg : value) :
  cfg ∈ driver_configs environ →
  cell_config_shape cfg = true ∧
  ∃ servers, cfg = VDict [("mcpServers", VDict servers)] ∧
             server_names cfg = dict_keys servers ∧
             (server_names cfg = ["playwright"]
              ∨ server_names cfg = ["brave_websearch"]).
Proof.
  unfold driver_configs. intros Hin. set_unfold in Hin.
  destruct Hin as [->|[->|[->|[]]]].
  - split; [reflexivity|]. eexists. split; [reflexivity|]. split; [reflexivity|].
    by left.
  - split; [reflexivity|]. eexists. split; [reflexivity|]. split; [reflexivity|].
    by left.
  - unfold config_brave_websearch, os_getenv.
    destruct (environ !! "BRAVE_API_KEY") as [key|].
    + split; [reflexivity|]. eexists. split; [reflexivity|].
      split; [reflexivity|]. by right.
    + split; [reflexivity|]. eexists. split; [reflexivity|].
      split; [reflexivity|]. by right.
Qed.

Lemma driver_configs_shape_witness :
  config_brave_websearch sample_environ ∈ driver_configs sample_environ ∧
  cell_config_shape (config_brave_websearch sample_environ) = true ∧
  ∃ servers,
    config_brave_websearch sample_environ = VDict [("mcpServers", VDict servers)] ∧
    server_names (config_brave_websearch sample_environ) = dict_keys servers ∧
    (server_names (config_brave_websearch sample_environ) = ["playwright"]
     ∨ server_names (config_brave_websearch sample_environ) = ["brave_websearch"]).
Proof.
  assert (Hin : config_brave_websearch sample_environ
                ∈ driver_configs sample_environ).
  { apply list_elem_of_further, list_elem_of_further, list_elem_of_here. }
  split; [exact Hin|].
  exact (driver_configs_shape sample_environ _ Hin).
Defined.

(* --------------------------------------------------------------------- *)
(* The quiet agent wrapper                                               *)
(* --------------------------------------------------------------------- *)

Section NotebookAgent.

Variable base : base_constructor.

(** A construction that returns went through these steps, whatever the
    base constructor did to the heap in between. *)
Lemma NotebookAgent_inv arguments st self st' :
  NotebookAgent base arguments st = (Ok self, st') →
  arguments = [] ∧
  self = fresh (dom (st_heap st)) ∧
  ∃ h1 ob ob',
    let ns := fresh (dom h1) in
    let h2 := <[ns := {| obj_class := "Namespace"; obj_attrs := ∅ |}]> h1 in
    let h3 := <[self := {| obj_class := obj_class ob;
                           obj_attrs := <["args" := VRef ns]> (obj_attrs ob) |}]> h2 in
    base "NotebookAgent" self
      (<[self := {| obj_class := "NotebookAgent"; obj_attrs := ∅ |}]> (st_heap st))
      = (Ok (), h1) ∧
    h2 !! self = Some ob ∧
    h3 !! ns = Some ob' ∧
    st' = {| st_heap := <[ns := {| obj_class := obj_class ob';
                                   obj_attrs := <["quiet" := VBool true]> (obj_attrs ob') |}]> h3;
             st_trace := st_trace st ++
               [EvAlloc self "NotebookAgent";
                EvBaseInit "NotebookAgent" self;
                EvAlloc ns "Namespace";
                EvSetAttr self "args" (VRef ns);
                EvSetAttr ns "quiet" (VBool true)] |}.
Proof.
  unfold NotebookAgent, NotebookAgent_init, Namespace, super_init.
  unfold mbind, eff_bind, mret, eff_ret. cbn [alloc st_heap st_trace].
  destruct arguments as [|x xs]; [|done].
  set (self0 := fresh (dom (st_heap st))).
  cbn [st_heap st_trace].
  destruct (base "NotebookAgent" self0 _) as [[[]|e] h1] eqn:Hbase;
    cbn [st_heap st_trace]; [|done].
  set (ns := fresh (dom h1)).
  cbn [setattr st_heap st_trace].
  destruct (<[ns:=_]> h1 !! self0) as [ob|] eqn:Hself; [|done].
  cbn [getattr_ref st_heap st_trace].
  rewrite lookup_insert_eq. cbn [mbind option_bind obj_attrs].
  rewrite lookup_insert_eq.
  cbn [setattr st_heap st_trace].
  match goal with
  | |- context [?h !! ns] => destruct (h !! ns) as [ob'|] eqn:Hns; [|done]
  end.
  intros [= <- <-].
  split; [done|]. split; [done|].
  exists h1, ob, ob'. cbn zeta. fold ns.
  split; [done|]. split; [done|]. split; [done|].
  f_equal. by rewrite <- !(assoc_L (++)).
Qed.

(** Without touching what the base constructor left in place: the base
    constructor keeps the instance it initialises, so the namespace created
    afterwards is another object. *)
Lemma NotebookAgent_inv_fresh arguments st self st' :
  keeps_objects base →
  NotebookAgent base arguments st = (Ok self, st') →
  ∃ h1 ob,
    let ns := fresh (dom h1) in
    base "NotebookAgent" self
      (<[self := {| obj_class := "NotebookAgent"; obj_attrs := ∅ |}]> (st_heap st))
      = (Ok (), h1) ∧
    ns ≠ self ∧
    h1 !! self = Some ob ∧
    st_heap st' =
      <[ns := {| obj_class := "Namespace";
                 obj_attrs := {["quiet" := VBool true]} |}]>
        (<[self := {| obj_class := obj_class ob;
                      obj_attrs := <["args" := VRef ns]> (obj_attrs ob) |}]>
           (<[ns := {| obj_class := "Namespace"; obj_attrs := ∅ |}]> h1)).
Proof.
  intros Hkeep Hrun.
  destruct (NotebookAgent_inv _ _ _ _ Hrun)
    as (_ & Hself & h1 & ob & ob' & Hbase & Hob & Hob' & ->).
  assert (Hin : self ∈ dom h1).
  { apply (Hkeep _ _ _ _ _ Hbase), elem_of_dom. rewrite lookup_insert_eq. eauto. }
  assert (Hne : fresh (dom h1) ≠ self).
  { intros Heq. rewrite <- Heq in Hin. by apply is_fresh in Hin. }
  exists h1, ob. cbn zeta.
  rewrite lookup_insert_ne in Hob by done.
  rewrite lookup_insert_ne, lookup_insert_eq in Hob' by done.
  injection Hob' as <-. cbn [st_heap obj_class obj_attrs].
  by rewrite insert_empty.
Qed.

(** After a construction that returns, [self.args.quiet] reads [True] and
    reading it changes nothing. *)
Lemma NotebookAgent_quiet_flag arguments st self st' :
  NotebookAgent base arguments st = (Ok self, st') →
  quiet_flag self st' = (Ok (VBool true), st').
Proof.
  intros Hrun.
  destruct (NotebookAgent_inv _ _ _ _ Hrun)
    as (_ & _ & h1 & ob & ob' & _ & Hob & Hob' & ->).
  cbn zeta in *. set (ns := fresh (dom h1)) in *.
  unfold quiet_flag, mbind, eff_bind. cbn [getattr_ref st_heap].
  destruct (decide (ns = self)) as [Heq|Hne].
  - rewrite Heq in *. rewrite lookup_insert_eq in Hob'. injection Hob' as <-.
    rewrite lookup_insert_eq. cbn [mbind option_bind obj_attrs].
    rewrite lookup_insert_ne, lookup_insert_eq by done.
    cbn [getattr_ref st_heap]. rewrite lookup_insert_eq.
    cbn [mbind option_bind obj_attrs]. by rewrite lookup_insert_eq.
  - rewrite lookup_insert_ne, lookup_insert_eq by done.
    cbn [mbind option_bind obj_attrs]. rewrite lookup_insert_eq.
    cbn [getattr_ref st_heap]. rewrite lookup_insert_eq.
    cbn [mbind option_bind obj_attrs]. by rewrite lookup_insert_eq.
Qed.

(** C4. Every instance that a call of [NotebookAgent] returns has its
    quiet flag [self.args.quiet] equal to [True], whatever the arguments of
    the call, the state before it and the base constructor. *)
Theorem NotebookAgent_quiet_after_construction arguments st self st' :
  NotebookAgent base arguments st = (Ok self, st') →
  (quiet_flag self st').1 = Ok (VBool true).
Proof.
  intros Hrun. by rewrite (NotebookAgent_quiet_flag _ _ _ _ Hrun).
Qed.

(** C2, amended.  In a construction that returns, the base constructor
    runs first, with the name ["NotebookAgent"], on the instance that has
    no attribute yet; then a namespace is created and stored as
    [self.args], and the write of [quiet = True] is the last step, after
    which the flag reads [True]. *)
Theorem NotebookAgent_init_order arguments st self st' :
  NotebookAgent base arguments st = (Ok self, st') →
  ∃ h1 ns,
    base "NotebookAgent" self
      (<[self := {| obj_class := "NotebookAgent"; obj_attrs := ∅ |}]> (st_heap st))
      = (Ok (), h1) ∧
    st_trace st' = (st_trace st ++
      [EvAlloc self "NotebookAgent";
       EvBaseInit "NotebookAgent" self;
       EvAlloc ns "Namespace";
       EvSetAttr self "args" (VRef ns);
       EvSetAttr ns "quiet" (VBool true)])%list ∧
    quiet_flag self st' = (Ok (VBool true), st').
Proof.
  intros Hrun.
  destruct (NotebookAgent_inv _ _ _ _ Hrun)
    as (_ & _ & h1 & ob & ob' & Hbase & _ & _ & Htr).
  exists h1, (fresh (dom h1)). split; [done|]. split.
  - by rewrite Htr.
  - by apply NotebookAgent_quiet_flag with arguments st.
Qed.

(** C10. After a construction that returns, [self.args] refers to a
    namespace that did not exist when the base constructor returned and
    whose only attribute is [quiet], equal to [True]: nothing the base
    constructor stored under [self.args] is reachable from it any more. *)
Theorem NotebookAgent_args_replaced arguments st self st' :
  keeps_objects base →
  NotebookAgent base arguments st = (Ok self, st') →
  ∃ h1 ns,
    base "NotebookAgent" self
      (<[self := {| obj_class := "NotebookAgent"; obj_attrs := ∅ |}]> (st_heap st))
      = (Ok (), h1) ∧
    (ns ∉ dom h1) ∧
    getattr_ref (VRef self) "args" st' = (Ok (VRef ns), st') ∧
    st_heap st' !! ns =
      Some {| obj_class := "Namespace";
              obj_attrs := {["quiet" := VBool true]} |} ∧
    ∀ a, a ≠ "quiet" → (getattr_ref (VRef ns) a st').1 = Raise (AttributeError a).
Proof.
  intros Hkeep Hrun.
  destruct (NotebookAgent_inv_fresh _ _ _ _ Hkeep Hrun)
    as (h1 & ob & Hbase & Hne & Hob & Hheap).
  cbn zeta in *. set (ns := fresh (dom h1)) in *.
  exists h1, ns. split; [done|]. split; [apply is_fresh|].
  cbn [getattr_ref]. rewrite Hheap.
  rewrite lookup_insert_ne, !lookup_insert_eq by done.
  cbn [mbind option_bind obj_attrs]. rewrite lookup_insert_eq.
  split; [done|]. split; [done|].
  intros a Ha. by rewrite lookup_singleton_ne.
Qed.

End NotebookAgent.

(** The sample base constructor keeps the objects of the heap. *)
Lemma cli_base_constructor_keeps_objects : keeps_objects cli_base_constructor.
Proof.
  intros name self h r h'. unfold cli_base_constructor.
  destruct (h !! self) as [ob|]; intros [= <- <-]; [|done].
  rewrite !dom_insert. set_solver.
Qed.

(** A call with an argument raises [TypeError]: no instance is returned. *)
Lemma NotebookAgent_arguments_rejected base x xs st :
  ∃ msg, (NotebookAgent base (x :: xs) st).1 = Raise (TypeError msg).
Proof. by eexists. Qed.

Lemma NotebookAgent_quiet_after_construction_witness :
  NotebookAgent cli_base_constructor [] empty_state
    = (Ok 1%positive, sample_construction.2) ∧
  (quiet_flag 1%positive sample_construction.2).1 = Ok (VBool true).
Proof.
  split; [vm_compute; reflexivity|].
  apply (NotebookAgent_quiet_after_construction
           cli_base_constructor [] empty_state 1%positive sample_construction.2).
  vm_compute; reflexivity.
Defined.

(** C2, as stated, fails: on the sample base constructor the construction
    returns, and in its trace the base constructor runs before [quiet] is
    written; when the base constructor returns, the flag it stored reads
    [False]. *)
Lemma NotebookAgent_quiet_first_counterexample :
  sample_construction.1 = Ok 1%positive ∧
  quiet_set_before_base (st_trace sample_construction.2) = false ∧
  st_trace sample_construction.2 !! 1%nat = Some (EvBaseInit "NotebookAgent" 1%positive) ∧
  st_trace sample_construction.2 !! 4%nat = Some (EvSetAttr 3%positive "quiet" (VBool true)) ∧
  (quiet_flag 1%positive
     {| st_heap :=
          (cli_base_constructor "NotebookAgent" 1%positive
             {[1%positive := {| obj_class := "NotebookAgent"; obj_attrs := ∅ |}]}).2;
        st_trace := [] |}).1 = Ok (VBool false).
Proof. by vm_compute. Qed.

Lemma NotebookAgent_init_order_witness :
  NotebookAgent cli_base_constructor [] empty_state
    = (Ok 1%positive, sample_construction.2) ∧
  ∃ h1 ns,
    cli_base_constructor "NotebookAgent" 1%positive
      (<[1%positive := {| obj_class := "NotebookAgent"; obj_attrs := ∅ |}]>
         (st_heap empty_state))
      = (Ok (), h1) ∧
    st_trace sample_construction.2 = (st_trace empty_state ++
      [EvAlloc 1%positive "NotebookAgent";
       EvBaseInit "NotebookAgent" 1%positive;
       EvAlloc ns "Namespace";
       EvSetAttr 1%positive "args" (VRef ns);
       EvSetAttr ns "quiet" (VBool true)])%list ∧
    quiet_flag 1%positive sample_construction.2 = (Ok (VBool true), sample_construction.2).
Proof.
  split; [vm_compute; reflexivity|].
  apply (NotebookAgent_init_order
           cli_base_constructor [] empty_state 1%positive sample_construction.2).
  vm_compute; reflexivity.
Defined.

Lemma NotebookAgent_args_replaced_witness :
  keeps_objects cli_base_constructor ∧
  NotebookAgent cli_base_constructor [] empty_state
    = (Ok 1%positive, sample_construction.2) ∧
  ∃ h1 ns,
    cli_base_constructor "NotebookAgent" 1%positive
      (<[1%positive := {| obj_class := "NotebookAgent"; obj_attrs := ∅ |}]>
         (st_heap empty_state))
      = (Ok (), h1) ∧
    (ns ∉ dom h1) ∧
    getattr_ref (VRef 1%positive) "args" sample_construction.2
      = (Ok (VRef ns), sample_construction.2) ∧
    st_heap sample_construction.2 !! ns =
      Some {| obj_class := "Namespace";
              obj_attrs := {["quiet" := VBool true]} |} ∧
    ∀ a, a ≠ "quiet" →
         (getattr_ref (VRef ns) a sample_construction.2).1
         = Raise (AttributeError a).
Proof.
  split; [exact cli_base_constructor_keeps_objects|].
  split; [vm_compute; reflexivity|].
  apply (NotebookAgent_args_replaced
           cli_base_constructor [] empty_state 1%positive sample_construction.2).
  - exact cli_base_constructor_keeps_objects.
  - vm_compute; reflexivity.
Defined.

(* --------------------------------------------------------------------- *)
(* The credential loader                                                 *)
(* --------------------------------------------------------------------- *)

Lemma inject_keeps (environ : gmap string string) kv k v :
  environ !! k = Some v → inject environ kv !! k = Some v.
Proof.
  intros Hk. unfold inject. destruct (environ !! kv.1) eqn:E; [done|].
  rewrite lookup_insert_ne; [done|]. intros <-. congruence.
Qed.

Lemma inject_origin (environ : gmap string string) kv k v :
  inject environ kv !! k = Some v →
  environ !! k = Some v ∨ (environ !! k = None ∧ kv = (k, v)).
Proof.
  unfold inject. destruct (environ !! kv.1) eqn:E; [by left|].
  destruct (decide (kv.1 = k)) as [<-|Hne].
  - rewrite lookup_insert_eq. intros [= <-]. right. by destruct kv.
  - rewrite lookup_insert_ne by done. by left.
Qed.

Lemma inject_present (environ : gmap string string) kv :
  is_Some (inject environ kv !! kv.1).
Proof.
  unfold inject. destruct (environ !! kv.1) eqn:E; [by rewrite E|].
  rewrite lookup_insert_eq. eauto.
Qed.

Lemma foldl_inject_keeps pairs (environ : gmap string string) k v :
  environ !! k = Some v → foldl inject environ pairs !! k = Some v.
Proof.
  revert environ. induction pairs as [|kv pairs IH]; intros environ Hk; [done|].
  cbn [foldl]. by apply IH, inject_keeps.
Qed.

Lemma foldl_inject_origin pairs (environ : gmap string string) k v :
  foldl inject environ pairs !! k = Some v →
  environ !! k = Some v ∨ (environ !! k = None ∧ (k, v) ∈ pairs).
Proof.
  revert environ. induction pairs as [|kv pairs IH]; intros environ; [by left|].
  cbn [foldl]. intros [Hk|[Hk Hin]]%IH.
  - apply inject_origin in Hk as [Hk|[Hk ->]]; [by left|].
    right. split; [done | apply list_elem_of_here].
  - right. split; [|by apply list_elem_of_further].
    destruct (environ !! k) as [w|] eqn:E; [|done].
    by rewrite (inject_keeps _ _ _ _ E) in Hk.
Qed.

Lemma foldl_inject_present pairs (environ : gmap string string) k v :
  (k, v) ∈ pairs → is_Some (foldl inject environ pairs !! k).
Proof.
  revert environ. induction pairs as [|kv pairs IH]; intros environ Hin.
  - by apply elem_of_nil in Hin.
  - cbn [foldl]. apply elem_of_cons in Hin as [<-|Hin]; [|by apply IH].
    destruct (inject_present environ (k, v)) as [w Hw].
    exists w. by apply foldl_inject_keeps.
Qed.

(** C8. Loading the environment file is additive: a variable set before
    the load has the same value after it, whatever the file says; a binding
    of the loaded environment that was not there before comes from a pair
    of the file whose key was not set; and every key of the file is set
    after the load. *)
Theorem load_dotenv_additive (file : option (list string))
    (environ : gmap string string) :
  (∀ k v, environ !! k = Some v → load_dotenv file environ !! k = Some v) ∧
  (∀ k v, load_dotenv file environ !! k = Some v →
     environ !! k = Some v
     ∨ (environ !! k = None
        ∧ ∃ lines, file = Some lines ∧ (k, v) ∈ dotenv_pairs lines)) ∧
  (∀ lines k v, file = Some lines → (k, v) ∈ dotenv_pairs lines →
     is_Some (load_dotenv file environ !! k)).
Proof.
  unfold load_dotenv. destruct file as [lines|].
  - split; [|split].
    + intros k v. apply foldl_inject_keeps.
    + intros k v [Hk|[Hk Hin]]%foldl_inject_origin; [by left|].
      right. eauto.
    + intros lines' k v [= <-]. apply foldl_inject_present.
  - split; [done|]. split; [by left | done].
Qed.

(** A file that redefines a variable already set does not override it. *)
Lemma load_dotenv_additive_witness :
  sample_environ !! "BRAVE_API_KEY" = Some "from-shell" ∧
  load_dotenv sample_env_file sample_environ !! "BRAVE_API_KEY"
    = Some "from-shell" ∧
  load_dotenv sample_env_file sample_environ !! "OPENAI_API_KEY"
    = Some "your_openai_key".
Proof.
  split; [reflexivity|]. split.
  - apply (proj1 (load_dotenv_additive sample_env_file sample_environ)).
    reflexivity.
  - vm_compute. reflexivity.
Defined.

(* --------------------------------------------------------------------- *)
(* The cells that list tools                                             *)
(* --------------------------------------------------------------------- *)

Section Cells.

Context {W : Type}.

(** The list comprehension invokes the formatter on the listed tools in
    order, stopping at the first one it fails on, and touches nothing
    else. *)
Lemma comprehension_formatted (tools : list value) (st : cell_state W) r st' :
  comprehension call_tool_to_dict tools st = (r, st') →
  ∃ called,
    formatted st' = (formatted st ++ called)%list ∧
    called `prefix_of` tools ∧
    world st' = world st ∧
    displayed st' = displayed st.
Proof.
  revert st r st'. induction tools as [|t tools IH]; intros st r st'.
  - intros [= <- <-]. exists []. by rewrite app_nil_r.
  - cbn [comprehension]. unfold mbind, eff_bind, call_tool_to_dict at 1.
    destruct (tool_to_dict t) as [row|e].
    + destruct (comprehension call_tool_to_dict tools _) as [r2 st2] eqn:Hrest.
      apply IH in Hrest as (called & Hf & Hp & Hw & Hd).
      cbn [formatted world displayed] in *.
      intros Heq. assert (st' = st2) as -> by (by destruct r2; injection Heq).
      exists (t :: called). rewrite Hf, <- (assoc_L (++)).
      split; [done|]. split; [by apply prefix_cons | done].
    + intros [= <- <-]. exists [t]. cbn. split; [done|]. split; [|done].
      apply prefix_cons, prefix_nil.
Qed.

(** What the body of a listing cell does, by the way the listing goes. *)
Lemma list_tools_body_fails (c : client W) (st : cell_state W) (e : exn) :
  listing_fails c (world st) e →
  ∃ st', list_tools_body c st = (Raise e, st') ∧
         formatted st' = formatted st ∧
         displayed st' = displayed st.
Proof.
  intros [w1 Henter|w1 w2 w3 Henter Hlist Hexit];
    unfold list_tools_body, async_with, library_call, mbind, eff_bind;
    rewrite Henter; cbn [world formatted displayed].
  - by eexists.
  - rewrite Hlist. cbn [world formatted displayed]. rewrite Hexit. by eexists.
Qed.

(** The formatter runs only on tools that a successful listing returned. *)
Lemma list_tools_body_formatted (c : client W) (st : cell_state W) r st' :
  list_tools_body c st = (r, st') →
  ∃ called,
    formatted st' = (formatted st ++ called)%list ∧
    (called = []
     ∨ ∃ w1 w2 tools,
         client_aenter c (world st) = (Ok (), w1) ∧
         client_list_tools c w1 = (Ok tools, w2) ∧
         called `prefix_of` tools).
Proof.
  unfold list_tools_body, async_with, library_call, mbind, eff_bind.
  destruct (client_aenter c (world st)) as [[[]|e] w1] eqn:Henter;
    cbn [world formatted displayed].
  2: { intros [= <- <-]. exists []. rewrite app_nil_r. auto. }
  destruct (client_list_tools c w1) as [[tools|e] w2] eqn:Hlist;
    cbn [world formatted displayed].
  - destruct (comprehension call_tool_to_dict tools _) as [r2 st2] eqn:Hrows.
    apply comprehension_formatted in Hrows as (called & Hf & Hp & _ & _).
    cbn [formatted] in Hf.
    intros Heq. exists called.
    split; [|right; by exists w1, w2, tools].
    rewrite <- Hf. destruct r2 as [rows|e].
    + unfold display in Heq. cbn [world formatted displayed] in Heq.
      destruct (client_aexit c None (world st2)) as [[b|e] w3];
        injection Heq as <- <-; done.
    + destruct (client_aexit c (Some e) (world st2)) as [[[]|e'] w3];
        injection Heq as <- <-; done.
  - intros Heq. exists []. rewrite app_nil_r. split; [|by left].
    destruct (client_aexit c (Some e) w2) as [[[]|e'] w3];
      injection Heq as <- <-; done.
Qed.

(** C9. When listing the tools fails in one of the two listing cells (the
    launch command cannot be run, or the request fails on the open
    connection), the cell ends with that very error, and neither is the
    formatter invoked nor anything displayed during the run. *)
Theorem listing_failure_propagates (Client : value → client W)
    (cell : listing_cell) (st : cell_state W) (e : exn) :
  listing_fails (Client (cell_config cell)) (world st) e →
  ∃ st', run_cell Client cell st = (Raise e, st') ∧
         formatted st' = formatted st ∧
         displayed st' = displayed st.
Proof.
  intros Hfail. destruct cell; by apply list_tools_body_fails.
Qed.

End Cells.

Lemma listing_failure_propagates_witness :
  listing_fails unreachable_client (world sample_cell_state) spawn_error ∧
  ∃ st', run (λ _, unreachable_client) sample_cell_state = (Raise spawn_error, st') ∧
         formatted st' = formatted sample_cell_state ∧
         displayed st' = displayed sample_cell_state.
Proof.
  assert (Hfail : listing_fails unreachable_client (world sample_cell_state)
                    spawn_error).
  { apply fails_on_connect with (). reflexivity. }
  split; [exact Hfail|].
  exact (listing_failure_propagates (λ _, unreachable_client) PlaywrightCell
           sample_cell_state spawn_error Hfail).
Defined.

(* ===================================================================== *)
(* Further properties of the code                                        *)
(* ===================================================================== *)

(* --------------------------------------------------------------------- *)
(* The formatter, beyond well-formed tool objects                        *)
(* --------------------------------------------------------------------- *)

Lemma has_attr_false a attrs :
  has_attr a attrs = false → assoc a attrs = None.
Proof. unfold has_attr. by destruct (assoc a attrs). Qed.

Lemma getattr_error o a e : getattr o a = Raise e → e = AttributeError a.
Proof.
  destruct o as [| | | | | |cls attrs|]; cbn [getattr]; try by intros [= <-].
  destruct (assoc a attrs); [done | by intros [= <-]].
Qed.

Lemma annotation_or_none_error tool hint e :
  annotation_or_none tool hint = Raise e →
  e = AttributeError "annotations" ∨ e = AttributeError hint.
Proof.
  unfold annotation_or_none.
  destruct (getattr tool "annotations") as [a|e1] eqn:Ea; cbn.
  - destruct (truthy a); [|done].
    intros He%getattr_error. by right.
  - intros [= <-]. left. by apply getattr_error in Ea.
Qed.

(** A falsy value has no hint to give. *)
Lemma hint_of_falsy a hint : truthy a = false → hint_of a hint = VNone.
Proof. by destruct a. Qed.

(** On a formattable tool object the conditional expression gives the
    hint of the annotations object, [None] for a falsy [annotations]. *)
Lemma annotation_or_none_formattable cls attrs a hint :
  assoc "annotations" attrs = Some a →
  negb (truthy a) || wf_annotations a = true →
  hint ∈ ["title"; "readOnlyHint"; "destructiveHint"] →
  annotation_or_none (VObj cls attrs) hint = Ok (hint_of a hint).
Proof.
  intros Ea Hok Hin. destruct (truthy a) eqn:Ht.
  - apply (annotation_or_none_wf cls attrs a hint Ea); [|done].
    by destruct (wf_annotations a).
  - unfold annotation_or_none. cbn [getattr]. rewrite Ea. cbn.
    by rewrite Ht, hint_of_falsy.
Qed.

(** The record of a formattable tool object. *)
Lemma tool_to_dict_formattable tool :
  formattable tool = true →
  ∃ cls attrs n d a s,
    tool = VObj cls attrs ∧
    assoc "name" attrs = Some n ∧
    assoc "description" attrs = Some d ∧
    assoc "annotations" attrs = Some a ∧
    assoc "inputSchema" attrs = Some (VDict s) ∧
    tool_to_dict tool =
      Ok (VDict [("name", n);
                 ("title", hint_of a "title");
                 ("description", d);
                 ("readOnly", hint_of a "readOnlyHint");
                 ("destructive", hint_of a "destructiveHint");
                 ("inputs", VList (VStr <$> dict_keys (properties_of s)))]).
Proof.
  destruct tool as [| | | | | |cls attrs|]; try done.
  cbn [formattable]. intros H.
  apply andb_prop in H as [H Hs]. apply andb_prop in H as [H Ha].
  apply andb_prop in H as [Hn Hd].
  apply has_attr_true in Hn as [n Hn]. apply has_attr_true in Hd as [d Hd].
  destruct (assoc "annotations" attrs) as [a|] eqn:Ea; [|done].
  destruct (assoc "inputSchema" attrs) as [sv|] eqn:Es; [|done].
  destruct sv as [| | | | |s| |]; try done.
  exists cls, attrs, n, d, a, s. repeat split; try done.
  unfold tool_to_dict.
  rewrite !(annotation_or_none_formattable cls attrs a) by (done || set_solver).
  cbn [getattr]. rewrite Hn, Hd, Es. cbn [mbind result_bind call_get].
  unfold properties_of. cbn [wf_schema] in Hs.
  destruct (assoc "properties" s) as [[| | | | |p| |]|]; try done.
Qed.

(** A tool object the formatter returns on is formattable. *)
Lemma tool_to_dict_ok_formattable tool r :
  tool_to_dict tool = Ok r → formattable tool = true.
Proof.
  destruct tool as [| | | | | |cls attrs|]; try done.
  unfold tool_to_dict, annotation_or_none, formattable, has_attr.
  cbn [getattr].
  destruct (assoc "name" attrs) as [n|]; [|done].
  destruct (assoc "annotations" attrs) as [a|]; [|done].
  destruct (assoc "description" attrs) as [d|];
    [|cbn; by destruct (truthy a), (getattr a "title")].
  destruct (assoc "inputSchema" attrs) as [sv|].
  2: { cbn. destruct (truthy a); [|done].
       by destruct (getattr a "title"), (getattr a "readOnlyHint"),
                   (getattr a "destructiveHint"). }
  cbn. destruct (truthy a) eqn:Ht.
  - destruct a as [| | | | | |acls aattrs|]; try done.
    cbn [getattr]. unfold wf_annotations, has_attr.
    destruct (assoc "title" aattrs); [|done].
    destruct (assoc "readOnlyHint" aattrs); [|done].
    destruct (assoc "destructiveHint" aattrs); [|done].
    cbn. destruct sv as [| | | | |s| |]; try done. cbn.
    by destruct (assoc "properties" s) as [[| | | | |p| |]|].
  - cbn. destruct sv as [| | | | |s| |]; try done. cbn.
    by destruct (assoc "properties" s) as [[| | | | |p| |]|].
Qed.


(** X2. On a tool that is not a heap reference, whose [annotations] is
    not one either and whose [inputSchema] is JSON data, the only
    exception [tool_to_dict] raises is [AttributeError], and it names one
    of the attributes the function reads or one of the two dict methods it
    calls. *)
Theorem tool_to_dict_only_attribute_errors (tool : value) (e : exn) :
  is_reference tool = false →
  (∀ a, getattr tool "annotations" = Ok a → is_reference a = false) →
  (∀ s, getattr tool "inputSchema" = Ok s → json_data s = true) →
  tool_to_dict tool = Raise e →
  ∃ a, e = AttributeError a ∧ a ∈ formatter_accesses.
Proof.
  intros _ _ Hjson.
  unfold tool_to_dict, formatter_accesses.
  destruct (getattr tool "name") as [n|e1] eqn:E1; cbn.
  2: { intros [= <-]. apply getattr_error in E1. eexists. split; [done|set_solver]. }
  destruct (annotation_or_none tool "title") as [t|e2] eqn:E2; cbn.
  2: { intros [= <-]. apply annotation_or_none_error in E2 as [->| ->];
       (eexists; split; [done|set_solver]). }
  destruct (getattr tool "description") as [d|e3] eqn:E3; cbn.
  2: { intros [= <-]. apply getattr_error in E3. eexists. split; [done|set_solver]. }
  destruct (annotation_or_none tool "readOnlyHint") as [ro|e4] eqn:E4; cbn.
  2: { intros [= <-]. apply annotation_or_none_error in E4 as [->| ->];
       (eexists; split; [done|set_solver]). }
  destruct (annotation_or_none tool "destructiveHint") as [de|e5] eqn:E5; cbn.
  2: { intros [= <-]. apply annotation_or_none_error in E5 as [->| ->];
       (eexists; split; [done|set_solver]). }
  destruct (getattr tool "inputSchema") as [sv|e6] eqn:E6; cbn.
  2: { intros [= <-]. apply getattr_error in E6. eexists. split; [done|set_solver]. }
  specialize (Hjson sv eq_refl).
  destruct sv as [| | | | |s| |]; cbn; try done;
    try (intros [= <-]; eexists; split; [done|set_solver]).
  destruct (assoc "properties" s) as [p|] eqn:Ep; cbn; [|done].
  assert (Hp : json_data p = true).
  { clear -Hjson Ep. cbn [json_data] in Hjson.
    induction s as [|[k v] s IH]; [done|].
    cbn [forallb] in Hjson. apply andb_prop in Hjson as [Hv Hs].
    cbn [assoc] in Ep. destruct (String.eqb "properties" k); [by injection Ep as <-|auto]. }
  destruct p as [| | | | |p| |]; cbn; try done;
    intros [= <-]; eexists; (split; [done|set_solver]).
Qed.

Lemma tool_to_dict_only_attribute_errors_witness :
  is_reference malformed_tool_properties_none = false ∧
  (∀ a, getattr malformed_tool_properties_none "annotations" = Ok a →
        is_reference a = false) ∧
  (∀ s, getattr malformed_tool_properties_none "inputSchema" = Ok s →
        json_data s = true) ∧
  tool_to_dict malformed_tool_properties_none = Raise (AttributeError "keys") ∧
  ∃ a, AttributeError "keys" = AttributeError a ∧ a ∈ formatter_accesses.
Proof.
  assert (Ha : ∀ a, getattr malformed_tool_properties_none "annotations" = Ok a →
                    is_reference a = false) by (by intros a [= <-]).
  assert (Hs : ∀ s, getattr malformed_tool_properties_none "inputSchema" = Ok s →
                    json_data s = true) by (by intros s [= <-]).
  split; [reflexivity|]. split; [exact Ha|]. split; [exact Hs|].
  split; [reflexivity|].
  apply (tool_to_dict_only_attribute_errors malformed_tool_properties_none);
    [reflexivity | exact Ha | exact Hs | reflexivity].
Defined.

(** X3. When [annotations] is an instance, the record carries the tool's
    own [name] and [description] and the three hints of the annotations
    object exactly as they are: a hint that is [False] stays [False] and
    is not turned into [None]. *)
Theorem tool_to_dict_passes_values_through (tool a : value) :
  formattable tool = true →
  getattr tool "annotations" = Ok a →
  truthy a = true →
  ∃ r n d t ro de,
    tool_to_dict tool = Ok r ∧
    getattr tool "name" = Ok n ∧ field "name" r = Some n ∧
    getattr tool "description" = Ok d ∧ field "description" r = Some d ∧
    getattr a "title" = Ok t ∧ field "title" r = Some t ∧
    getattr a "readOnlyHint" = Ok ro ∧ field "readOnly" r = Some ro ∧
    getattr a "destructiveHint" = Ok de ∧ field "destructive" r = Some de.
Proof.
  intros Hf Ha Ht.
  destruct (tool_to_dict_formattable _ Hf)
    as (cls & attrs & n & d & a' & s & -> & Hn & Hd & Ha' & Hs & ->).
  cbn [getattr] in Ha. rewrite Ha' in Ha. injection Ha as ->.
  cbn [formattable] in Hf. rewrite Ha', Ht in Hf.
  apply andb_prop in Hf as [Hf _]. apply andb_prop in Hf as [_ Hwa].
  destruct a as [| | | | | |acls aattrs|]; try done.
  cbn [negb orb wf_annotations] in Hwa.
  apply andb_prop in Hwa as [Hwa H3]. apply andb_prop in Hwa as [H1 H2].
  apply has_attr_true in H1 as [t H1]. apply has_attr_true in H2 as [ro H2].
  apply has_attr_true in H3 as [de H3].
  exists (VDict [("name", n); ("title", t); ("description", d);
                 ("readOnly", ro); ("destructive", de);
                 ("inputs", VList (VStr <$> dict_keys (properties_of s)))]),
         n, d, t, ro, de.
  cbn [getattr hint_of]. rewrite Hn, Hd, H1, H2, H3. done.
Qed.

Lemma tool_to_dict_passes_values_through_witness :
  formattable sample_tool_titled = true ∧
  getattr sample_tool_titled "annotations"
    = Ok (VObj "ToolAnnotations"
            [("title", VStr "Click"); ("readOnlyHint", VBool false);
             ("destructiveHint", VBool true)]) ∧
  ∃ r n d t ro de,
    tool_to_dict sample_tool_titled = Ok r ∧
    getattr sample_tool_titled "name" = Ok n ∧ field "name" r = Some n ∧
    getattr sample_tool_titled "description" = Ok d ∧
    field "description" r = Some d ∧
    getattr (VObj "ToolAnnotations"
               [("title", VStr "Click"); ("readOnlyHint", VBool false);
                ("destructiveHint", VBool true)]) "title" = Ok t ∧
    field "title" r = Some t ∧
    getattr (VObj "ToolAnnotations"
               [("title", VStr "Click"); ("readOnlyHint", VBool false);
                ("destructiveHint", VBool true)]) "readOnlyHint" = Ok ro ∧
    field "readOnly" r = Some ro ∧
    getattr (VObj "ToolAnnotations"
               [("title", VStr "Click"); ("readOnlyHint", VBool false);
                ("destructiveHint", VBool true)]) "destructiveHint" = Ok de ∧
    field "destructive" r = Some de.
Proof.
  split; [reflexivity|]. split; [reflexivity|].
  apply (tool_to_dict_passes_values_through sample_tool_titled); reflexivity.
Defined.

(** X4. The test on [annotations] is a truth test: on a tool object whose
    [annotations] is falsy without being [None] (an empty mapping, [False],
    an empty string, ...) the formatter still returns a record, with
    [title], [readOnly] and [destructive] all [None]. *)
Theorem tool_to_dict_falsy_annotations (tool a : value) :
  formattable tool = true →
  getattr tool "annotations" = Ok a →
  truthy a = false →
  ∃ r, tool_to_dict tool = Ok r ∧
       field "title" r = Some VNone ∧
       field "readOnly" r = Some VNone ∧
       field "destructive" r = Some VNone.
Proof.
  intros Hf Ha Ht.
  destruct (tool_to_dict_formattable _ Hf)
    as (cls & attrs & n & d & a' & s & -> & Hn & Hd & Ha' & Hs & ->).
  cbn [getattr] in Ha. rewrite Ha' in Ha. injection Ha as ->.
  eexists. split; [reflexivity|].
  cbn [field assoc String.eqb Ascii.eqb Bool.eqb].
  by rewrite !hint_of_falsy.
Qed.

Lemma tool_to_dict_falsy_annotations_witness :
  formattable sample_tool_empty_annotations = true ∧
  wf_tool sample_tool_empty_annotations = false ∧
  getattr sample_tool_empty_annotations "annotations" = Ok (VDict []) ∧
  ∃ r, tool_to_dict sample_tool_empty_annotations = Ok r ∧
       field "title" r = Some VNone ∧
       field "readOnly" r = Some VNone ∧
       field "destructive" r = Some VNone.
Proof.
  split; [reflexivity|]. split; [reflexivity|]. split; [reflexivity|].
  apply (tool_to_dict_falsy_annotations sample_tool_empty_annotations (VDict []));
    reflexivity.
Defined.

(** X5. Every record [tool_to_dict] returns is a mapping with exactly the
    six keys [name], [title], [description], [readOnly], [destructive],
    [inputs], in this order, and its [inputs] is a list of strings with one
    entry per key of the schema's properties. *)
Theorem tool_to_dict_record_layout (tool r : value) :
  tool_to_dict tool = Ok r →
  ∃ d names,
    r = VDict d ∧
    dict_keys d = record_keys ∧
    field "inputs" r = Some (VList (VStr <$> names)) ∧
    ∀ schema, getattr tool "inputSchema" = Ok (VDict schema) →
              names = dict_keys (properties_of schema).
Proof.
  intros Hr. pose proof (tool_to_dict_ok_formattable _ _ Hr) as Hf.
  destruct (tool_to_dict_formattable _ Hf)
    as (cls & attrs & n & d & a & s & -> & Hn & Hd & Ha & Hs & Heq).
  rewrite Heq in Hr. injection Hr as <-.
  eexists _, (dict_keys (properties_of s)).
  split; [reflexivity|]. split; [reflexivity|]. split; [reflexivity|].
  intros schema. cbn [getattr]. rewrite Hs. by intros [= ->].
Qed.

Lemma tool_to_dict_record_layout_witness :
  tool_to_dict sample_tool
    = Ok (VDict [("name", VStr "browser_navigate"); ("title", VNone);
                 ("description", VStr "Navigate to a URL");
                 ("readOnly", VBool false); ("destructive", VNone);
                 ("inputs", VList [VStr "url"; VStr "count"])]) ∧
  ∃ d names,
    VDict [("name", VStr "browser_navigate"); ("title", VNone);
           ("description", VStr "Navigate to a URL");
           ("readOnly", VBool false); ("destructive", VNone);
           ("inputs", VList [VStr "url"; VStr "count"])] = VDict d ∧
    dict_keys d = record_keys ∧
    field "inputs"
      (VDict [("name", VStr "browser_navigate"); ("title", VNone);
              ("description", VStr "Navigate to a URL");
              ("readOnly", VBool false); ("destructive", VNone);
              ("inputs", VList [VStr "url"; VStr "count"])])
      = Some (VList (VStr <$> names)) ∧
    ∀ schema, getattr sample_tool "inputSchema" = Ok (VDict schema) →
              names = dict_keys (properties_of schema).
Proof.
  split; [reflexivity|].
  apply (tool_to_dict_record_layout sample_tool). reflexivity.
Defined.

(* --------------------------------------------------------------------- *)
(* The quiet agent wrapper: failure, success, frame                      *)
(* --------------------------------------------------------------------- *)

Section NotebookAgentMore.

Variable base : base_constructor.

(** The whole construction, once the base constructor has returned and
    kept the instance. *)
Lemma NotebookAgent_run st h1 ob :
  base "NotebookAgent" (new_self st) (heap_at_base st) = (Ok (), h1) →
  h1 !! new_self st = Some ob →
  NotebookAgent base [] st =
    (Ok (new_self st),
     {| st_heap :=
          <[fresh (dom h1) := {| obj_class := "Namespace";
                                 obj_attrs := {["quiet" := VBool true]} |}]>
            (<[new_self st := {| obj_class := obj_class ob;
                                 obj_attrs := <["args" := VRef (fresh (dom h1))]>
                                                (obj_attrs ob) |}]>
               (<[fresh (dom h1) := {| obj_class := "Namespace"; obj_attrs := ∅ |}]> h1));
        st_trace := (st_trace st ++
          [EvAlloc (new_self st) "NotebookAgent";
           EvBaseInit "NotebookAgent" (new_self st);
           EvAlloc (fresh (dom h1)) "Namespace";
           EvSetAttr (new_self st) "args" (VRef (fresh (dom h1)));
           EvSetAttr (fresh (dom h1)) "quiet" (VBool true)])%list |}).
Proof.
  intros Hbase Hob. unfold heap_at_base, new_self in *.
  assert (Hne : fresh (dom h1) ≠ fresh (dom (st_heap st))).
  { intros Heq. apply (is_fresh (dom h1)). rewrite Heq.
    apply elem_of_dom. eauto. }
  unfold NotebookAgent, NotebookAgent_init, Namespace, super_init.
  unfold mbind, eff_bind, mret, eff_ret. cbn [alloc st_heap st_trace].
  rewrite Hbase. cbn [st_heap st_trace setattr].
  rewrite lookup_insert_ne, Hob by done.
  cbn [getattr_ref st_heap st_trace].
  rewrite lookup_insert_eq. cbn [mbind option_bind obj_attrs].
  rewrite lookup_insert_eq. cbn [setattr st_heap st_trace].
  rewrite lookup_insert_ne, lookup_insert_eq by done.
  cbn [obj_class obj_attrs]. rewrite insert_empty.
  by rewrite <- !(assoc_L (++)).
Qed.

(** X6. Construction succeeds whenever the base constructor does: if the
    base constructor returns, [NotebookAgent()] returns the new instance,
    and its quiet flag reads [True]. *)
Theorem NotebookAgent_construction_succeeds st h1 :
  keeps_objects base →
  base "NotebookAgent" (new_self st) (heap_at_base st) = (Ok (), h1) →
  ∃ st', NotebookAgent base [] st = (Ok (new_self st), st') ∧
         quiet_flag (new_self st) st' = (Ok (VBool true), st').
Proof.
  intros Hkeep Hbase.
  assert (Hin : new_self st ∈ dom h1).
  { apply (Hkeep _ _ _ _ _ Hbase), elem_of_dom. unfold heap_at_base.
    rewrite lookup_insert_eq. eauto. }
  apply elem_of_dom in Hin as [ob Hob].
  pose proof (NotebookAgent_run st h1 ob Hbase Hob) as Hrun.
  eexists. split; [exact Hrun|].
  exact (NotebookAgent_quiet_flag base _ _ _ _ Hrun).
Qed.

(** X7. An exception of the base constructor is the exception of the
    construction: no instance is returned, and the wrapper neither creates
    a namespace nor writes any attribute. *)
Theorem NotebookAgent_base_failure st e h1 :
  base "NotebookAgent" (new_self st) (heap_at_base st) = (Raise e, h1) →
  ∃ st', NotebookAgent base [] st = (Raise e, st') ∧
         st_heap st' = h1 ∧
         new_events st st' = [EvAlloc (new_self st) "NotebookAgent";
                              EvBaseInit "NotebookAgent" (new_self st)].
Proof.
  intros Hbase. unfold heap_at_base, new_self in *.
  unfold NotebookAgent, NotebookAgent_init, Namespace, super_init.
  unfold mbind, eff_bind, mret, eff_ret. cbn [alloc st_heap st_trace].
  rewrite Hbase. eexists. split; [reflexivity|]. split; [done|].
  unfold new_events. cbn [st_trace].
  rewrite <- (assoc_L (++)). by rewrite drop_app_length.
Qed.

(** X8. The wrapper touches nothing but [self.args] and the namespace it
    creates: the class of the instance and every other attribute the base
    constructor stored on it are kept, and every other object of the heap,
    the namespace the base constructor had stored included, is left as the
    base constructor left it. *)
Theorem NotebookAgent_frame arguments st self st' :
  keeps_objects base →
  NotebookAgent base arguments st = (Ok self, st') →
  ∃ h1 ob ob',
    base "NotebookAgent" self (heap_at_base st) = (Ok (), h1) ∧
    h1 !! self = Some ob ∧
    st_heap st' !! self = Some ob' ∧
    obj_class ob' = obj_class ob ∧
    (∀ a, a ≠ "args" → obj_attrs ob' !! a = obj_attrs ob !! a) ∧
    (∀ l, l ≠ self → is_Some (h1 !! l) → st_heap st' !! l = h1 !! l).
Proof.
  intros Hkeep Hrun.
  destruct (NotebookAgent_inv _ _ _ _ _ Hrun) as (_ & Hself & _).
  destruct (NotebookAgent_inv_fresh _ _ _ _ _ Hkeep Hrun)
    as (h1 & ob & Hbase & Hne & Hob & Hheap).
  cbn zeta in *. exists h1, ob. eexists.
  unfold heap_at_base, new_self. rewrite <- Hself.
  split; [done|]. split; [done|]. rewrite Hheap.
  split; [by rewrite lookup_insert_ne, lookup_insert_eq|].
  split; [done|]. split.
  - intros a Ha. cbn [obj_attrs]. by rewrite lookup_insert_ne.
  - intros l Hl [o Ho].
    assert (l ≠ fresh (dom h1)).
    { intros ->. apply (is_fresh (dom h1)), elem_of_dom. eauto. }
    by rewrite !lookup_insert_ne.
Qed.

(** X9. A call with any argument raises [TypeError] before the
    constructor body runs: the base constructor is not invoked and nothing
    is written. *)
Theorem NotebookAgent_arguments_type_error arguments st :
  arguments ≠ [] →
  ∃ msg st',
    NotebookAgent base arguments st = (Raise (TypeError msg), st') ∧
    new_events st st' = [EvAlloc (new_self st) "NotebookAgent"].
Proof.
  intros Hargs. destruct arguments as [|x xs]; [done|].
  unfold NotebookAgent, mbind, eff_bind, raise. cbn [alloc].
  eexists _, _. split; [reflexivity|].
  unfold new_events. cbn [st_trace]. by rewrite drop_app_length.
Qed.

(** X10. Two constructions give two instances, each with a namespace of
    its own: the instances differ, their [args] differ, and neither
    namespace is an instance. *)
Theorem NotebookAgent_instances_distinct a1 a2 st self1 st1 self2 st2 :
  keeps_objects base →
  NotebookAgent base a1 st = (Ok self1, st1) →
  NotebookAgent base a2 st1 = (Ok self2, st2) →
  ∃ ns1 ns2,
    getattr_ref (VRef self1) "args" st1 = (Ok (VRef ns1), st1) ∧
    getattr_ref (VRef self2) "args" st2 = (Ok (VRef ns2), st2) ∧
    self1 ≠ self2 ∧ ns1 ≠ ns2 ∧
    ns1 ≠ self1 ∧ ns1 ≠ self2 ∧ ns2 ≠ self1 ∧ ns2 ≠ self2.
Proof.
  intros Hkeep Hrun1 Hrun2.
  destruct (NotebookAgent_inv _ _ _ _ _ Hrun2) as (_ & Hself2 & _).
  destruct (NotebookAgent_inv_fresh _ _ _ _ _ Hkeep Hrun1)
    as (h1 & ob1 & Hbase1 & Hne1 & Hob1 & Hheap1).
  destruct (NotebookAgent_inv_fresh _ _ _ _ _ Hkeep Hrun2)
    as (h2 & ob2 & Hbase2 & Hne2 & Hob2 & Hheap2).
  cbn zeta in *. set (ns1 := fresh (dom h1)) in *. set (ns2 := fresh (dom h2)) in *.
  assert (Hd1 : self1 ∈ dom (st_heap st1) ∧ ns1 ∈ dom (st_heap st1)).
  { rewrite Hheap1, !dom_insert. set_solver. }
  destruct Hd1 as [Hs1 Hn1].
  assert (Hsub : dom (st_heap st1) ⊆ dom h2).
  { etrans; [|exact (Hkeep _ _ _ _ _ Hbase2)]. rewrite dom_insert. set_solver. }
  assert (Hfresh2 : ns2 ∉ dom h2) by apply is_fresh.
  assert (Hfresh : self2 ∉ dom (st_heap st1)) by (rewrite Hself2; apply is_fresh).
  exists ns1, ns2. split; [|split].
  - cbn [getattr_ref]. rewrite Hheap1.
    rewrite lookup_insert_ne, lookup_insert_eq by done.
    cbn [mbind option_bind obj_attrs]. by rewrite lookup_insert_eq.
  - cbn [getattr_ref]. rewrite Hheap2.
    rewrite lookup_insert_ne, lookup_insert_eq by done.
    cbn [mbind option_bind obj_attrs]. by rewrite lookup_insert_eq.
  - split; [intros Heq; apply Hfresh; by rewrite <- Heq|].
    split; [intros Heq; apply Hfresh2; rewrite <- Heq; by apply Hsub|].
    split; [exact Hne1|].
    split; [intros Heq; apply Hfresh; by rewrite <- Heq|].
    split; [intros Heq; apply Hfresh2; rewrite Heq; by apply Hsub|].
    exact Hne2.
Qed.

End NotebookAgentMore.

Lemma NotebookAgent_construction_succeeds_witness :
  keeps_objects cli_base_constructor ∧
  cli_base_constructor "NotebookAgent" (new_self empty_state)
    (heap_at_base empty_state) = (Ok (), sample_base_heap) ∧
  ∃ st', NotebookAgent cli_base_constructor [] empty_state
           = (Ok (new_self empty_state), st') ∧
         quiet_flag (new_self empty_state) st' = (Ok (VBool true), st').
Proof.
  split; [exact cli_base_constructor_keeps_objects|].
  split; [vm_compute; reflexivity|].
  apply (NotebookAgent_construction_succeeds cli_base_constructor empty_state
           sample_base_heap).
  - exact cli_base_constructor_keeps_objects.
  - vm_compute; reflexivity.
Defined.

Lemma NotebookAgent_base_failure_witness :
  failing_base_constructor "NotebookAgent" (new_self empty_state)
    (heap_at_base empty_state) = (Raise config_error, heap_at_base empty_state) ∧
  ∃ st', NotebookAgent failing_base_constructor [] empty_state
           = (Raise config_error, st') ∧
         st_heap st' = heap_at_base empty_state ∧
         new_events empty_state st'
           = [EvAlloc (new_self empty_state) "NotebookAgent";
              EvBaseInit "NotebookAgent" (new_self empty_state)].
Proof.
  split; [reflexivity|].
  apply (NotebookAgent_base_failure failing_base_constructor empty_state
           config_error (heap_at_base empty_state)).
  reflexivity.
Defined.

(** On the sample construction the instance keeps the [name] the base
    constructor stored, and the namespace the base constructor had parsed
    still holds [quiet = False]. *)
Lemma NotebookAgent_frame_witness :
  keeps_objects cli_base_constructor ∧
  NotebookAgent cli_base_constructor [] empty_state
    = (Ok 1%positive, sample_construction.2) ∧
  (st_heap sample_construction.2 !! 1%positive
     ≫= λ ob, obj_attrs ob !! "name") = Some (VStr "NotebookAgent") ∧
  (st_heap sample_construction.2 !! 2%positive
     ≫= λ ob, obj_attrs ob !! "quiet") = Some (VBool false) ∧
  ∃ h1 ob ob',
    cli_base_constructor "NotebookAgent" 1%positive (heap_at_base empty_state)
      = (Ok (), h1) ∧
    h1 !! 1%positive = Some ob ∧
    st_heap sample_construction.2 !! 1%positive = Some ob' ∧
    obj_class ob' = obj_class ob ∧
    (∀ a, a ≠ "args" → obj_attrs ob' !! a = obj_attrs ob !! a) ∧
    (∀ l, l ≠ 1%positive → is_Some (h1 !! l) →
          st_heap sample_construction.2 !! l = h1 !! l).
Proof.
  split; [exact cli_base_constructor_keeps_objects|].
  split; [vm_compute; reflexivity|].
  split; [vm_compute; reflexivity|].
  split; [vm_compute; reflexivity|].
  apply (NotebookAgent_frame cli_base_constructor [] empty_state 1%positive
           sample_construction.2).
  - exact cli_base_constructor_keeps_objects.
  - vm_compute; reflexivity.
Defined.

Lemma NotebookAgent_arguments_type_error_witness :
  [VStr "NotebookAgent"] ≠ [] ∧
  ∃ msg st',
    NotebookAgent cli_base_constructor [VStr "NotebookAgent"] empty_state
      = (Raise (TypeError msg), st') ∧
    new_events empty_state st' = [EvAlloc (new_self empty_state) "NotebookAgent"].
Proof.
  split; [discriminate|].
  apply (NotebookAgent_arguments_type_error cli_base_constructor
           [VStr "NotebookAgent"] empty_state).
  discriminate.
Defined.

Lemma NotebookAgent_instances_distinct_witness :
  keeps_objects cli_base_constructor ∧
  NotebookAgent cli_base_constructor [] empty_state
    = (Ok 1%positive, sample_construction.2) ∧
  NotebookAgent cli_base_constructor [] sample_construction.2
    = (Ok 4%positive, sample_second_construction.2) ∧
  ∃ ns1 ns2,
    getattr_ref (VRef 1%positive) "args" sample_construction.2
      = (Ok (VRef ns1), sample_construction.2) ∧
    getattr_ref (VRef 4%positive) "args" sample_second_construction.2
      = (Ok (VRef ns2), sample_second_construction.2) ∧
    1%positive ≠ 4%positive ∧ ns1 ≠ ns2 ∧
    ns1 ≠ 1%positive ∧ ns1 ≠ 4%positive ∧ ns2 ≠ 1%positive ∧ ns2 ≠ 4%positive.
Proof.
  split; [exact cli_base_constructor_keeps_objects|].
  split; [vm_compute; reflexivity|].
  split; [vm_compute; reflexivity|].
  apply (NotebookAgent_instances_distinct cli_base_constructor [] [] empty_state
           1%positive sample_construction.2 4%positive
           sample_second_construction.2).
  - exact cli_base_constructor_keeps_objects.
  - vm_compute; reflexivity.
  - vm_compute; reflexivity.
Defined.

(* --------------------------------------------------------------------- *)
(* The listing cells: success, malformed tools, the exit                 *)
(* --------------------------------------------------------------------- *)

Section CellsMore.

Context {W : Type}.

(** The comprehension over tools the formatter returns on. *)
Lemma comprehension_all_ok (tools rows : list value) (st : cell_state W) :
  Forall2 (λ t r, tool_to_dict t = Ok r) tools rows →
  comprehension call_tool_to_dict tools st =
    (Ok rows, {| world := world st;
                 formatted := (formatted st ++ tools)%list;
                 displayed := displayed st |}).
Proof.
  intros H. revert st. induction H as [|t r tools rows Ht _ IH]; intros st.
  - cbn. rewrite app_nil_r. by destruct st.
  - cbn [comprehension]. unfold mbind, eff_bind, call_tool_to_dict at 1.
    rewrite Ht, IH. cbn [world formatted displayed mret eff_ret].
    by rewrite <- (assoc_L (++)).
Qed.

(** The comprehension stops at the first tool the formatter raises on. *)
Lemma comprehension_first_failure (good rows : list value) bad rest e
    (st : cell_state W) :
  Forall2 (λ t r, tool_to_dict t = Ok r) good rows →
  tool_to_dict bad = Raise e →
  comprehension call_tool_to_dict (good ++ bad :: rest)%list st =
    (Raise e, {| world := world st;
                 formatted := (formatted st ++ good ++ [bad])%list;
                 displayed := displayed st |}).
Proof.
  intros H Hbad. revert st. induction H as [|t r good rows Ht _ IH]; intros st.
  - cbn [app comprehension]. unfold mbind, eff_bind, call_tool_to_dict at 1.
    by rewrite Hbad.
  - cbn [app comprehension]. unfold mbind, eff_bind, call_tool_to_dict at 1.
    rewrite Ht, IH. cbn [world formatted displayed].
    by rewrite <- (assoc_L (++)).
Qed.

(** A comprehension that returns went over all the tools. *)
Lemma comprehension_ok_inv (tools rows : list value) (st st' : cell_state W) :
  comprehension call_tool_to_dict tools st = (Ok rows, st') →
  Forall2 (λ t r, tool_to_dict t = Ok r) tools rows ∧
  st' = {| world := world st;
           formatted := (formatted st ++ tools)%list;
           displayed := displayed st |}.
Proof.
  revert rows st st'. induction tools as [|t tools IH]; intros rows st st'.
  - intros [= <- <-]. split; [constructor|]. rewrite app_nil_r. by destruct st.
  - cbn [comprehension]. unfold mbind, eff_bind, call_tool_to_dict at 1.
    destruct (tool_to_dict t) as [r|e] eqn:Ht; [|done].
    destruct (comprehension call_tool_to_dict tools _) as [[rs|e] st2] eqn:Hrest;
      [|done].
    intros [= <- <-]. apply IH in Hrest as [Hall ->].
    split; [by constructor|]. cbn [world formatted displayed].
    by rewrite <- (assoc_L (++)).
Qed.

Lemma formattable_rows (tools : list value) :
  Forall (λ t, formattable t = true) tools →
  ∃ rows, Forall2 (λ t r, tool_to_dict t = Ok r) tools rows.
Proof.
  induction 1 as [|t tools Ht _ [rows IH]]; [by exists []|].
  destruct (tool_to_dict_formattable _ Ht)
    as (? & ? & ? & ? & ? & ? & _ & _ & _ & _ & _ & Hr).
  eexists (_ :: rows). by constructor.
Qed.

(** X11. When the connection opens, the listing returns tools that are all
    formattable and the exit returns, a listing cell returns normally: the
    formatter is invoked once on each tool, in the order listed, and
    exactly one table is displayed, with one row per tool, each row the
    record of its tool. *)
Theorem listing_success_displays_table (Client : value → client W)
    (cell : listing_cell) (st : cell_state W) w1 w2 w3 tools swallow :
  client_aenter (Client (cell_config cell)) (world st) = (Ok (), w1) →
  client_list_tools (Client (cell_config cell)) w1 = (Ok tools, w2) →
  Forall (λ t, formattable t = true) tools →
  client_aexit (Client (cell_config cell)) None w2 = (Ok swallow, w3) →
  ∃ rows,
    Forall2 (λ t r, tool_to_dict t = Ok r) tools rows ∧
    run_cell Client cell st =
      (Ok (), {| world := w3;
                 formatted := (formatted st ++ tools)%list;
                 displayed := (displayed st ++ [DataFrame rows])%list |}).
Proof.
  intros Henter Hlist Hall Hexit.
  destruct (formattable_rows _ Hall) as [rows Hrows].
  exists rows. split; [done|].
  destruct cell; unfold run_cell, run, run_list, list_tools_body, async_with,
    library_call, mbind, eff_bind; cbn [cell_config] in *;
    rewrite Henter; cbn [world formatted displayed];
    rewrite Hlist; cbn [world formatted displayed];
    rewrite (comprehension_all_ok _ _ _ Hrows);
    unfold display; cbn [world formatted displayed];
    by rewrite Hexit.
Qed.

(** X12. A tool the formatter raises on stops a listing cell: the cell
    ends with the exception of the formatter, the tools after the
    offending one are not formatted, and no table is displayed, not even
    for the tools before it. *)
Theorem listing_malformed_tool (Client : value → client W)
    (cell : listing_cell) (st : cell_state W) w1 w2 w3 good bad rest e :
  client_aenter (Client (cell_config cell)) (world st) = (Ok (), w1) →
  client_list_tools (Client (cell_config cell)) w1
    = (Ok (good ++ bad :: rest)%list, w2) →
  Forall (λ t, formattable t = true) good →
  tool_to_dict bad = Raise e →
  client_aexit (Client (cell_config cell)) (Some e) w2 = (Ok false, w3) →
  run_cell Client cell st =
    (Raise e, {| world := w3;
                 formatted := (formatted st ++ good ++ [bad])%list;
                 displayed := displayed st |}).
Proof.
  intros Henter Hlist Hall Hbad Hexit.
  destruct (formattable_rows _ Hall) as [rows Hrows].
  destruct cell; unfold run_cell, run, run_list, list_tools_body, async_with,
    library_call, mbind, eff_bind; cbn [cell_config] in *;
    rewrite Henter; cbn [world formatted displayed];
    rewrite Hlist; cbn [world formatted displayed];
    rewrite (comprehension_first_failure _ _ _ _ _ _ Hrows Hbad);
    cbn [world formatted displayed];
    by rewrite Hexit.
Qed.

(** Where the body of a listing cell leaves the world and the display. *)
Lemma list_tools_body_outcome (c : client W) (st : cell_state W) r st' :
  list_tools_body c st = (r, st') →
  ((∀ e w1, client_aenter c (world st) = (Raise e, w1) →
      r = Raise e ∧ world st' = w1) ∧
   (∀ w1, client_aenter c (world st) = (Ok (), w1) →
      ∃ exc w2, world st' = (client_aexit c exc w2).2)) ∧
  (displayed st' = displayed st
   ∨ ∃ w1 w2 tools rows,
       client_aenter c (world st) = (Ok (), w1) ∧
       client_list_tools c w1 = (Ok tools, w2) ∧
       Forall2 (λ t row, tool_to_dict t = Ok row) tools rows ∧
       formatted st' = (formatted st ++ tools)%list ∧
       displayed st' = (displayed st ++ [DataFrame rows])%list).
Proof.
  unfold list_tools_body, async_with, library_call, mbind, eff_bind.
  destruct (client_aenter c (world st)) as [[[]|e] w1] eqn:Henter;
    cbn [world formatted displayed].
  2: { intros [= <- <-]. split; [|by left]. split; [|done].
       by intros e' w1' [= <- <-]. }
  destruct (client_list_tools c w1) as [[tools|e] w2] eqn:Hlist;
    cbn [world formatted displayed].
  - destruct (comprehension call_tool_to_dict tools _) as [[rows|e] st2] eqn:Hrows.
    + apply comprehension_ok_inv in Hrows as [Hall ->].
      unfold display. cbn [world formatted displayed].
      destruct (client_aexit c None w2) as [[b|e'] w3] eqn:Hexit;
        intros [= <- <-]; cbn [world formatted displayed];
        (split; [split; [done|]; intros ? [= <-]; exists None, w2; by rewrite Hexit|]);
        right; by exists w1, w2, tools, rows.
    + apply comprehension_formatted in Hrows as (called & _ & _ & Hw & Hd).
      cbn [world displayed] in Hw, Hd. rewrite Hw.
      destruct (client_aexit c (Some e) w2) as [[[]|e'] w3] eqn:Hexit;
        intros [= <- <-]; cbn [world formatted displayed];
        (split; [split; [done|]; intros ? [= <-]; exists (Some e), w2; by rewrite Hexit|]);
        by left.
  - destruct (client_aexit c (Some e) w2) as [[[]|e'] w3] eqn:Hexit;
      intros [= <- <-]; cbn [world formatted displayed];
      (split; [split; [done|]; intros ? [= <-]; exists (Some e), w2; by rewrite Hexit|]);
      by left.
Qed.

(** X13. The exit of the connection runs exactly when the connection was
    opened: if entering raises, a listing cell ends with that exception
    and the world is as the failed entry left it; if entering returns,
    the world the cell leaves is the one an exit call produced, whether
    the body returned or raised. *)
Theorem listing_exit_discipline (Client : value → client W)
    (cell : listing_cell) (st : cell_state W) r st' :
  run_cell Client cell st = (r, st') →
  (∀ e w1, client_aenter (Client (cell_config cell)) (world st) = (Raise e, w1) →
     r = Raise e ∧ world st' = w1) ∧
  (∀ w1, client_aenter (Client (cell_config cell)) (world st) = (Ok (), w1) →
     ∃ exc w2, world st' = (client_aexit (Client (cell_config cell)) exc w2).2).
Proof.
  intros Hrun. destruct cell; by apply list_tools_body_outcome in Hrun as [? _].
Qed.

(** X14. The exit has the last word on a failed listing: if the exit
    raises, its exception replaces the one of the listing, and if the exit
    swallows the exception the cell returns normally; in both cases
    nothing is formatted or displayed. *)
Theorem listing_exit_overrides (Client : value → client W)
    (cell : listing_cell) (st : cell_state W) w1 w2 e :
  client_aenter (Client (cell_config cell)) (world st) = (Ok (), w1) →
  client_list_tools (Client (cell_config cell)) w1 = (Raise e, w2) →
  (∀ e' w3,
     client_aexit (Client (cell_config cell)) (Some e) w2 = (Raise e', w3) →
     run_cell Client cell st =
       (Raise e', {| world := w3; formatted := formatted st;
                     displayed := displayed st |})) ∧
  (∀ w3,
     client_aexit (Client (cell_config cell)) (Some e) w2 = (Ok true, w3) →
     run_cell Client cell st =
       (Ok (), {| world := w3; formatted := formatted st;
                  displayed := displayed st |})).
Proof.
  intros Henter Hlist.
  split; intros; destruct cell;
    unfold run_cell, run, run_list, list_tools_body, async_with,
      library_call, mbind, eff_bind; cbn [cell_config] in *;
    rewrite Henter; cbn [world formatted displayed];
    rewrite Hlist; cbn [world formatted displayed];
    by match goal with H : client_aexit _ _ _ = _ |- _ => rewrite H end.
Qed.

(** X15. A listing cell displays a whole table or nothing: whatever the
    client does, either the display is left as it was, or exactly one
    table was added, whose rows are the records of all the tools the
    listing returned, each of which the formatter was invoked on. *)
Theorem listing_displays_whole_table_or_nothing (Client : value → client W)
    (cell : listing_cell) (st : cell_state W) r st' :
  run_cell Client cell st = (r, st') →
  displayed st' = displayed st
  ∨ ∃ w1 w2 tools rows,
      client_aenter (Client (cell_config cell)) (world st) = (Ok (), w1) ∧
      client_list_tools (Client (cell_config cell)) w1 = (Ok tools, w2) ∧
      Forall2 (λ t row, tool_to_dict t = Ok row) tools rows ∧
      formatted st' = (formatted st ++ tools)%list ∧
      displayed st' = (displayed st ++ [DataFrame rows])%list.
Proof.
  intros Hrun. destruct cell; by apply list_tools_body_outcome in Hrun as [_ ?].
Qed.

(** What the body of [run_tool] does with the response of the call. *)
Lemma run_tool_outcome (c : tool_client W) (Markdown : value → result value)
    (st : cell_state W) r st' :
  run_tool c Markdown st = (r, st') →
  formatted st' = formatted st ∧
  (displayed st' = displayed st
   ∨ ∃ w1 w2 first rest text md,
       client_aenter (tc_client c) (world st) = (Ok (), w1) ∧
       client_call_tool c "brave_web_search" search_arguments w1
         = (Ok (VList (first :: rest)), w2) ∧
       getattr first "text" = Ok text ∧
       Markdown text = Ok md ∧
       displayed st' = (displayed st ++ [md])%list).
Proof.
  unfold run_tool, async_with, library_call, evaluate, display, mbind, eff_bind.
  destruct (client_aenter (tc_client c) (world st)) as [[[]|e] w1] eqn:Henter;
    cbn [world formatted displayed].
  2: { intros [= <- <-]. split; [done | by left]. }
  destruct (client_call_tool c "brave_web_search" search_arguments w1)
    as [[response|e] w2] eqn:Hcall; cbn [world formatted displayed].
  2: { destruct (client_aexit (tc_client c) (Some e) w2) as [[[]|e'] w3];
         intros [= <- <-]; (split; [done | by left]). }
  destruct (first_item response) as [first|e] eqn:Hfirst.
  2: { cbn [world formatted displayed].
       destruct (client_aexit (tc_client c) (Some e) w2) as [[[]|e'] w3];
         intros [= <- <-]; (split; [done | by left]). }
  destruct (getattr first "text") as [text|e] eqn:Htext.
  2: { cbn [world formatted displayed].
       destruct (client_aexit (tc_client c) (Some e) w2) as [[[]|e'] w3];
         intros [= <- <-]; (split; [done | by left]). }
  destruct (Markdown text) as [md|e] eqn:Hmd.
  2: { cbn [world formatted displayed].
       destruct (client_aexit (tc_client c) (Some e) w2) as [[[]|e'] w3];
         intros [= <- <-]; (split; [done | by left]). }
  cbn [world formatted displayed].
  assert (∃ rest, response = VList (first :: rest)) as [rest ->].
  { destruct response as [| | |s|l| | |]; try done.
    - destruct s; [done|]. injection Hfirst as <-. done.
    - destruct l as [|x rest]; [done|]. injection Hfirst as <-. by exists rest. }
  destruct (client_aexit (tc_client c) None w2) as [[b|e'] w3];
    intros [= <- <-]; (split; [done|]); right;
    by exists w1, w2, first, rest, text, md.
Qed.

(** X16. [run_tool] displays at most one thing and never invokes the
    formatter: the display is left as it was, unless the response of
    [brave_web_search] is a non-empty list whose first block has a [text]
    that [Markdown] accepts, in which case exactly that Markdown object is
    displayed; the blocks after the first are never shown. *)
Theorem run_tool_displays_first_text (c : tool_client W)
    (Markdown : value → result value) (st : cell_state W) r st' :
  run_tool c Markdown st = (r, st') →
  formatted st' = formatted st ∧
  (displayed st' = displayed st
   ∨ ∃ w1 w2 first rest text md,
       client_aenter (tc_client c) (world st) = (Ok (), w1) ∧
       client_call_tool c "brave_web_search" search_arguments w1
         = (Ok (VList (first :: rest)), w2) ∧
       getattr first "text" = Ok text ∧
       Markdown text = Ok md ∧
       displayed st' = (displayed st ++ [md])%list).
Proof. apply run_tool_outcome. Qed.

(** X17. When the tool answers with an empty list of blocks, [run_tool]
    raises [IndexError] on [response[0]]: nothing is displayed and the
    connection is closed with that exception. *)
Theorem run_tool_empty_response (c : tool_client W)
    (Markdown : value → result value) (st : cell_state W) w1 w2 w3 :
  client_aenter (tc_client c) (world st) = (Ok (), w1) →
  client_call_tool c "brave_web_search" search_arguments w1 = (Ok (VList []), w2) →
  client_aexit (tc_client c) (Some IndexError) w2 = (Ok false, w3) →
  run_tool c Markdown st =
    (Raise IndexError, {| world := w3; formatted := formatted st;
                          displayed := displayed st |}).
Proof.
  intros Henter Hcall Hexit.
  unfold run_tool, async_with, library_call, evaluate, display, mbind, eff_bind.
  rewrite Henter. cbn [world formatted displayed].
  rewrite Hcall. cbn [world formatted displayed first_item].
  by rewrite Hexit.
Qed.

(** X18. When the first block of the response has no [text] (an image
    block, say), [run_tool] raises [AttributeError] for [text] and
    displays nothing, whatever the later blocks are. *)
Theorem run_tool_block_without_text (c : tool_client W)
    (Markdown : value → result value) (st : cell_state W)
    w1 w2 w3 cls attrs rest :
  client_aenter (tc_client c) (world st) = (Ok (), w1) →
  client_call_tool c "brave_web_search" search_arguments w1
    = (Ok (VList (VObj cls attrs :: rest)), w2) →
  assoc "text" attrs = None →
  client_aexit (tc_client c) (Some (AttributeError "text")) w2 = (Ok false, w3) →
  run_tool c Markdown st =
    (Raise (AttributeError "text"),
     {| world := w3; formatted := formatted st; displayed := displayed st |}).
Proof.
  intros Henter Hcall Htext Hexit.
  unfold run_tool, async_with, library_call, evaluate, display, mbind, eff_bind.
  rewrite Henter. cbn [world formatted displayed].
  rewrite Hcall. cbn [world formatted displayed first_item getattr].
  rewrite Htext. cbn [world formatted displayed].
  by rewrite Hexit.
Qed.

(** X19. The navigation cell shows nothing: it never displays and never
    invokes the formatter, and when the connection opens, the call
    returns and the exit returns, it returns normally whatever the
    response is. *)
Theorem run_navigate_silent (c : tool_client W) (st : cell_state W) r st' :
  run_navigate c st = (r, st') →
  formatted st' = formatted st ∧
  displayed st' = displayed st ∧
  (∀ w1 w2 w3 response swallow,
     client_aenter (tc_client c) (world st) = (Ok (), w1) →
     client_call_tool c "browser_navigate" navigate_arguments w1
       = (Ok response, w2) →
     client_aexit (tc_client c) None w2 = (Ok swallow, w3) →
     r = Ok () ∧ world st' = w3).
Proof.
  unfold run_navigate, async_with, library_call, mbind, eff_bind, mret, eff_ret.
  destruct (client_aenter (tc_client c) (world st)) as [[[]|e] w1] eqn:Henter;
    cbn [world formatted displayed].
  2: { by intros [= <- <-]. }
  destruct (client_call_tool c "browser_navigate" navigate_arguments w1)
    as [[response|e] w2] eqn:Hcall; cbn [world formatted displayed].
  - destruct (client_aexit (tc_client c) None w2) as [[b|e'] w3] eqn:Hexit;
      intros [= <- <-]; (split; [done|]); (split; [done|]);
      intros w1' w2' w3' resp sw [= <-] Hc He; rewrite Hcall in Hc;
      injection Hc as <- <-; rewrite Hexit in He; by simplify_eq.
  - destruct (client_aexit (tc_client c) (Some e) w2) as [[[]|e'] w3] eqn:Hexit;
      intros [= <- <-]; (split; [done|]); (split; [done|]);
      intros w1' w2' w3' resp sw [= <-] Hc He; rewrite Hcall in Hc; done.
Qed.

(** X20. In the Brave Search cell a failed listing stops the cell before
    the search: the cell ends with the exception of the listing, in the
    very state [run_list] left, so [brave_web_search] is never called and
    nothing is displayed. *)
Theorem brave_search_cell_stops_on_listing_failure
    (Client : value → tool_client W) (Markdown : value → result value)
    (environ : gmap string string) (st : cell_state W) (e : exn) :
  listing_fails (tc_client (Client (config_brave_websearch environ))) (world st) e →
  ∃ st',
    run_list (λ cfg, tc_client (Client cfg)) environ st = (Raise e, st') ∧
    brave_search_cell Client Markdown environ st = (Raise e, st') ∧
    formatted st' = formatted st ∧
    displayed st' = displayed st.
Proof.
  intros Hfail.
  destruct (list_tools_body_fails _ _ _ Hfail) as (st' & Hrun & Hf & Hd).
  exists st'. unfold brave_search_cell, run_list, mbind, eff_bind.
  by rewrite Hrun.
Qed.

End CellsMore.

Lemma listing_success_displays_table_witness :
  client_aenter (listing_client [sample_tool; sample_tool_bare])
    (world sample_cell_state) = (Ok (), ()) ∧
  client_list_tools (listing_client [sample_tool; sample_tool_bare]) ()
    = (Ok [sample_tool; sample_tool_bare], ()) ∧
  Forall (λ t, formattable t = true) [sample_tool; sample_tool_bare] ∧
  client_aexit (listing_client [sample_tool; sample_tool_bare]) None ()
    = (Ok false, ()) ∧
  ∃ rows,
    Forall2 (λ t r, tool_to_dict t = Ok r) [sample_tool; sample_tool_bare] rows ∧
    run_cell (λ _, listing_client [sample_tool; sample_tool_bare])
      PlaywrightCell sample_cell_state =
      (Ok (), {| world := ();
                 formatted := (formatted sample_cell_state
                               ++ [sample_tool; sample_tool_bare])%list;
                 displayed := (displayed sample_cell_state
                               ++ [DataFrame rows])%list |}).
Proof.
  assert (Hall : Forall (λ t, formattable t = true) [sample_tool; sample_tool_bare]).
  { repeat constructor. }
  split; [reflexivity|]. split; [reflexivity|]. split; [exact Hall|].
  split; [reflexivity|].
  apply (listing_success_displays_table
           (λ _, listing_client [sample_tool; sample_tool_bare])
           PlaywrightCell sample_cell_state () () ()
           [sample_tool; sample_tool_bare] false);
    [reflexivity | reflexivity | exact Hall | reflexivity].
Defined.

Lemma listing_malformed_tool_witness :
  client_aenter
    (listing_client [sample_tool; malformed_tool_no_title; sample_tool_bare])
    (world sample_cell_state) = (Ok (), ()) ∧
  client_list_tools
    (listing_client [sample_tool; malformed_tool_no_title; sample_tool_bare]) ()
    = (Ok ([sample_tool] ++ malformed_tool_no_title :: [sample_tool_bare])%list, ()) ∧
  Forall (λ t, formattable t = true) [sample_tool] ∧
  tool_to_dict malformed_tool_no_title = Raise (AttributeError "title") ∧
  client_aexit
    (listing_client [sample_tool; malformed_tool_no_title; sample_tool_bare])
    (Some (AttributeError "title")) () = (Ok false, ()) ∧
  run_cell
    (λ _, listing_client [sample_tool; malformed_tool_no_title; sample_tool_bare])
    PlaywrightCell sample_cell_state =
    (Raise (AttributeError "title"),
     {| world := ();
        formatted := (formatted sample_cell_state
                      ++ [sample_tool] ++ [malformed_tool_no_title])%list;
        displayed := displayed sample_cell_state |}).
Proof.
  assert (Hall : Forall (λ t, formattable t = true) [sample_tool]).
  { repeat constructor. }
  split; [reflexivity|]. split; [reflexivity|]. split; [exact Hall|].
  split; [reflexivity|]. split; [reflexivity|].
  apply (listing_malformed_tool
           (λ _, listing_client
                   [sample_tool; malformed_tool_no_title; sample_tool_bare])
           PlaywrightCell sample_cell_state () () ()
           [sample_tool] malformed_tool_no_title [sample_tool_bare]
           (AttributeError "title"));
    [reflexivity | reflexivity | exact Hall | reflexivity | reflexivity].
Defined.

(** On the logging client the world records the entry, the listing and the
    exit, in this order. *)
Lemma listing_exit_discipline_witness :
  run_cell (λ _, tc_client (logging_client false)) PlaywrightCell sample_log_state
    = (Ok (), {| world := ["aenter"; "list_tools"; "aexit"];
                 formatted := []; displayed := [DataFrame []] |}) ∧
  (∀ e w1, client_aenter (tc_client (logging_client false))
             (world sample_log_state) = (Raise e, w1) →
     Ok () = Raise e ∧ ["aenter"; "list_tools"; "aexit"] = w1) ∧
  (∀ w1, client_aenter (tc_client (logging_client false))
           (world sample_log_state) = (Ok (), w1) →
     ∃ exc w2, ["aenter"; "list_tools"; "aexit"]
               = (client_aexit (tc_client (logging_client false)) exc w2).2).
Proof.
  split; [reflexivity|].
  apply (listing_exit_discipline (λ _, tc_client (logging_client false))
           PlaywrightCell sample_log_state (Ok ())
           {| world := ["aenter"; "list_tools"; "aexit"];
              formatted := []; displayed := [DataFrame []] |}).
  reflexivity.
Defined.

Lemma listing_exit_overrides_witness :
  client_aenter replacing_client (world sample_cell_state) = (Ok (), ()) ∧
  client_list_tools replacing_client () = (Raise spawn_error, ()) ∧
  client_aexit replacing_client (Some spawn_error) () = (Raise close_error, ()) ∧
  run_cell (λ _, replacing_client) PlaywrightCell sample_cell_state =
    (Raise close_error,
     {| world := (); formatted := formatted sample_cell_state;
        displayed := displayed sample_cell_state |}).
Proof.
  split; [reflexivity|]. split; [reflexivity|]. split; [reflexivity|].
  apply (proj1 (listing_exit_overrides (λ _, replacing_client) PlaywrightCell
                  sample_cell_state () () spawn_error eq_refl eq_refl)).
  reflexivity.
Defined.

Lemma listing_displays_whole_table_or_nothing_witness :
  run_cell (λ _, listing_client [sample_tool]) PlaywrightCell sample_cell_state
    = (Ok (), sample_listed_state) ∧
  (displayed sample_listed_state = displayed sample_cell_state
   ∨ ∃ w1 w2 tools rows,
       client_aenter (listing_client [sample_tool]) (world sample_cell_state)
         = (Ok (), w1) ∧
       client_list_tools (listing_client [sample_tool]) w1 = (Ok tools, w2) ∧
       Forall2 (λ t row, tool_to_dict t = Ok row) tools rows ∧
       formatted sample_listed_state
         = (formatted sample_cell_state ++ tools)%list ∧
       displayed sample_listed_state
         = (displayed sample_cell_state ++ [DataFrame rows])%list).
Proof.
  split; [reflexivity|].
  apply (listing_displays_whole_table_or_nothing
           (λ _, listing_client [sample_tool])
           PlaywrightCell sample_cell_state (Ok ()) sample_listed_state).
  reflexivity.
Defined.

Lemma run_tool_displays_first_text_witness :
  run_tool (answering_client (VList [sample_text_block; sample_image_block]))
    sample_Markdown sample_cell_state
    = (Ok (), {| world := (); formatted := [];
                 displayed := [VObj "Markdown" [("data", VStr "# Mallorca")]] |}) ∧
  formatted (W := ())
    {| world := (); formatted := [];
       displayed := [VObj "Markdown" [("data", VStr "# Mallorca")]] |}
    = formatted sample_cell_state ∧
  (displayed (W := ())
     {| world := (); formatted := [];
        displayed := [VObj "Markdown" [("data", VStr "# Mallorca")]] |}
     = displayed sample_cell_state
   ∨ ∃ w1 w2 first rest text md,
       client_aenter
         (tc_client (answering_client (VList [sample_text_block; sample_image_block])))
         (world sample_cell_state) = (Ok (), w1) ∧
       client_call_tool
         (answering_client (VList [sample_text_block; sample_image_block]))
         "brave_web_search" search_arguments w1
         = (Ok (VList (first :: rest)), w2) ∧
       getattr first "text" = Ok text ∧
       sample_Markdown text = Ok md ∧
       displayed (W := ())
         {| world := (); formatted := [];
            displayed := [VObj "Markdown" [("data", VStr "# Mallorca")]] |}
         = (displayed sample_cell_state ++ [md])%list).
Proof.
  split; [reflexivity|].
  apply (run_tool_displays_first_text
           (answering_client (VList [sample_text_block; sample_image_block]))
           sample_Markdown sample_cell_state (Ok ())).
  reflexivity.
Defined.

Lemma run_tool_empty_response_witness :
  client_aenter (tc_client (answering_client (VList [])))
    (world sample_cell_state) = (Ok (), ()) ∧
  client_call_tool (answering_client (VList [])) "brave_web_search"
    search_arguments () = (Ok (VList []), ()) ∧
  client_aexit (tc_client (answering_client (VList []))) (Some IndexError) ()
    = (Ok false, ()) ∧
  run_tool (answering_client (VList [])) sample_Markdown sample_cell_state =
    (Raise IndexError,
     {| world := (); formatted := formatted sample_cell_state;
        displayed := displayed sample_cell_state |}).
Proof.
  split; [reflexivity|]. split; [reflexivity|]. split; [reflexivity|].
  apply (run_tool_empty_response (answering_client (VList [])) sample_Markdown
           sample_cell_state () () ()); reflexivity.
Defined.

Lemma run_tool_block_without_text_witness :
  client_aenter
    (tc_client (answering_client (VList [sample_image_block; sample_text_block])))
    (world sample_cell_state) = (Ok (), ()) ∧
  client_call_tool
    (answering_client (VList [sample_image_block; sample_text_block]))
    "brave_web_search" search_arguments ()
    = (Ok (VList [sample_image_block; sample_text_block]), ()) ∧
  assoc "text" [("type", VStr "image"); ("data", VStr "iVBORw0KGgo=")] = None ∧
  client_aexit
    (tc_client (answering_client (VList [sample_image_block; sample_text_block])))
    (Some (AttributeError "text")) () = (Ok false, ()) ∧
  run_tool (answering_client (VList [sample_image_block; sample_text_block]))
    sample_Markdown sample_cell_state =
    (Raise (AttributeError "text"),
     {| world := (); formatted := formatted sample_cell_state;
        displayed := displayed sample_cell_state |}).
Proof.
  split; [reflexivity|]. split; [reflexivity|]. split; [reflexivity|].
  split; [reflexivity|].
  apply (run_tool_block_without_text
           (answering_client (VList [sample_image_block; sample_text_block]))
           sample_Markdown sample_cell_state () () () "ImageContent"
           [("type", VStr "image"); ("data", VStr "iVBORw0KGgo=")]
           [sample_text_block]); reflexivity.
Defined.

Lemma run_navigate_silent_witness :
  run_navigate (answering_client (VList [sample_text_block])) sample_cell_state
    = (Ok (), sample_cell_state) ∧
  formatted sample_cell_state = formatted sample_cell_state ∧
  displayed sample_cell_state = displayed sample_cell_state ∧
  (∀ w1 w2 w3 response swallow,
     client_aenter (tc_client (answering_client (VList [sample_text_block])))
       (world sample_cell_state) = (Ok (), w1) →
     client_call_tool (answering_client (VList [sample_text_block]))
       "browser_navigate" navigate_arguments w1 = (Ok response, w2) →
     client_aexit (tc_client (answering_client (VList [sample_text_block])))
       None w2 = (Ok swallow, w3) →
     Ok () = Ok () ∧ world sample_cell_state = w3).
Proof.
  split; [reflexivity|].
  apply (run_navigate_silent (answering_client (VList [sample_text_block]))
           sample_cell_state (Ok ()) sample_cell_state).
  reflexivity.
Defined.

(** On the logging client whose launch fails, the world records the entry
    only: neither the listing nor the search was called. *)
Lemma brave_search_cell_stops_on_listing_failure_witness :
  listing_fails (tc_client (logging_client true)) (world sample_log_state)
    spawn_error ∧
  world (brave_search_cell (λ _, logging_client true) sample_Markdown
           sample_environ sample_log_state).2 = ["aenter"] ∧
  ∃ st',
    run_list (λ cfg, tc_client (logging_client true)) sample_environ
      sample_log_state = (Raise spawn_error, st') ∧
    brave_search_cell (λ _, logging_client true) sample_Markdown sample_environ
      sample_log_state = (Raise spawn_error, st') ∧
    formatted st' = formatted sample_log_state ∧
    displayed st' = displayed sample_log_state.
Proof.
  assert (Hfail : listing_fails (tc_client (logging_client true))
                    (world sample_log_state) spawn_error).
  { apply fails_on_connect with ["aenter"]. reflexivity. }
  split; [exact Hfail|]. split; [reflexivity|].
  exact (brave_search_cell_stops_on_listing_failure (λ _, logging_client true)
           sample_Markdown sample_environ sample_log_state spawn_error Hfail).
Defined.

(* --------------------------------------------------------------------- *)
(* The Brave Search configuration and the process environment            *)
(* --------------------------------------------------------------------- *)

(** X21. The Brave Search configuration passes on what [os.getenv] gives:
    its entry binds [BRAVE_API_KEY] to the value of the variable, and the
    entry has the shape command, args and env with string values exactly
    when the variable is set; when it is unset the entry carries [None]
    for the key. *)
Theorem brave_server_entry_env (environ : gmap string string) :
  (brave_server_entry environ ≫= field "env")
    = Some (VDict [("BRAVE_API_KEY", os_getenv environ "BRAVE_API_KEY")]) ∧
  (from_option spec_server_entry false (brave_server_entry environ) = true
   ↔ is_Some (environ !! "BRAVE_API_KEY")) ∧
  (environ !! "BRAVE_API_KEY" = None →
   (brave_server_entry environ ≫= field "env") ≫= field "BRAVE_API_KEY"
     = Some VNone).
Proof.
  unfold brave_server_entry, config_brave_websearch, os_getenv.
  destruct (environ !! "BRAVE_API_KEY") as [key|] eqn:E.
  - split; [reflexivity|]. split; [|done]. split; [eauto | reflexivity].
  - split; [reflexivity|]. split; [|reflexivity].
    split; [done | by intros [? ?]].
Qed.
